(** * The tool registry of the MCP server template

    A shallow embedding of [src/tools/tool-registry.js]: the [ToolRegistry]
    class (registration, enumeration, dispatch, custom-tool loading) and the
    five built-in item tools, followed by the properties of the
    specification that concern them.  The configuration loader
    [src/config/config-loader.js] and further properties of the registry,
    the tools and the request handlers of the server come after. *)

From Stdlib Require Import String Ascii List ZArith Bool Lia.
From Stdlib Require Import DecimalString DecimalZ.
Import ListNotations.
Local Open Scope string_scope.
Local Open Scope list_scope.

Infix "+++" := String.append (at level 60, right associativity).

(** ** JavaScript data *)

(** The data that flows through the handlers: tool arguments, handler
    results, the parsed content of JSON files and input schemas.  Numbers
    are the integer-valued ones. *)
#[local] Unset Elimination Schemes.
Inductive value : Type :=
| VUndefined
| VNull
| VBool (b : bool)
| VNum (n : Z)
| VStr (s : string)
| VArr (elems : list value)
| VObj (props : list (string * value)).
#[local] Set Elimination Schemes.

(** What is thrown.  Every [throw] of the registry throws
    [new Error(msg)] and the run time raises [TypeError]s: objects with a
    [message], the only property the source reads from a caught error.
    The server also tells the SDK's [McpError]s apart, which carry an
    error code. *)
Record Error : Type := {
  message : string;
  mcp_code : option Z        (* [Some code] for an instance of McpError *)
}.

(** [new Error(msg)] *)
Definition mkError (msg : string) : Error :=
  {| message := msg; mcp_code := None |}.

Inductive outcome (A : Type) : Type :=
| Ok (a : A)
| Throw (e : Error).
Arguments Ok {A} a.
Arguments Throw {A} e.

(** [!!v] *)
Definition truthy (v : value) : bool :=
  match v with
  | VUndefined | VNull => false
  | VBool b => b
  | VNum n => negb (n =? 0)%Z
  | VStr s => negb (s =? "")%string
  | VArr _ | VObj _ => true
  end.

(** [a || b] *)
Definition js_or (a b : value) : value := if truthy a then a else b.

(** [a === b]; two distinct object or array references are never equal,
    and a freshly parsed document never shares a reference with the
    arguments of a call. *)
Definition strict_eq (a b : value) : bool :=
  match a, b with
  | VUndefined, VUndefined => true
  | VNull, VNull => true
  | VBool x, VBool y => Bool.eqb x y
  | VNum x, VNum y => (x =? y)%Z
  | VStr x, VStr y => (x =? y)%string
  | _, _ => false
  end.

Fixpoint assoc {A : Type} (k : string) (l : list (string * A)) : option A :=
  match l with
  | [] => None
  | (k', a) :: t => if (k =? k')%string then Some a else assoc k t
  end.

(** [o[k] = v] on an own-property list: an existing key keeps its place. *)
Fixpoint assoc_set {A : Type} (k : string) (a : A) (l : list (string * A))
  : list (string * A) :=
  match l with
  | [] => [(k, a)]
  | (k', a') :: t =>
      if (k =? k')%string then (k, a) :: t else (k', a') :: assoc_set k a t
  end.

Definition describe (v : value) : string :=
  match v with
  | VNull => "null"
  | _ => "undefined"
  end.

(** [v.k], reading a data property. *)
Definition get_prop (v : value) (k : string) : outcome value :=
  match v with
  | VUndefined | VNull =>
      Throw (mkError ("Cannot read properties of " +++ describe v +++
                      " (reading '" +++ k +++ "')"))
  | VObj props =>
      Ok (match assoc k props with Some x => x | None => VUndefined end)
  | VArr l =>
      Ok (if (k =? "length")%string then VNum (Z.of_nat (List.length l))
          else VUndefined)
  | VStr s =>
      Ok (if (k =? "length")%string then VNum (Z.of_nat (String.length s))
          else VUndefined)
  | VBool _ | VNum _ => Ok VUndefined
  end.

(** [v.k = x] *)
Definition set_prop (v : value) (k : string) (x : value) : outcome value :=
  match v with
  | VUndefined | VNull =>
      Throw (mkError ("Cannot set properties of " +++ describe v +++
                      " (setting '" +++ k +++ "')"))
  | VObj props => Ok (VObj (assoc_set k x props))
  | _ => Ok v
  end.

(** Decimal rendering of an integer, [n.toString()]. *)
Definition Z_toString (n : Z) : string := NilZero.string_of_int (Z.to_int n).

(** What [JSON.parse(JSON.stringify(v))] gives back: properties holding
    [undefined] are dropped, [undefined] array elements become [null]. *)
Fixpoint jsonify (v : value) : value :=
  match v with
  | VArr l =>
      VArr (map (fun x => match jsonify x with
                          | VUndefined => VNull
                          | y => y
                          end) l)
  | VObj props =>
      VObj (flat_map (fun kx => match jsonify (snd kx) with
                                | VUndefined => []
                                | y => [(fst kx, y)]
                                end) props)
  | _ => v
  end.

Fixpoint is_json (v : value) : bool :=
  match v with
  | VUndefined => false
  | VArr l => forallb is_json l
  | VObj props => forallb (fun kx => is_json (snd kx)) props
  | _ => true
  end.

(** ** The host: Node.js services the registry calls *)

Inductive file_state : Type :=
| Missing
| Json (content : value)
| Unparsable (why : string)
| Dir (entries : list string).

(** What the handlers and the loader see of the machine: the file system
    by path, the system clock, and standard error. *)
Record world : Type := mkWorld {
  files : string -> file_state;
  clock : nat -> Z;            (* successive readings of the system clock *)
  ticks : nat;                 (* readings taken so far *)
  console : list string;       (* lines written by console.error *)
  invocations : list (string * value)
                               (* ghost: handler activations, oldest first *)
}.

(** ** State and failure *)

Definition M (S A : Type) : Type := S -> outcome A * S.

Definition ret {S A} (a : A) : M S A := fun s => (Ok a, s).
Definition throw {S A} (e : Error) : M S A := fun s => (Throw e, s).
Definition bind {S A B} (m : M S A) (k : A -> M S B) : M S B :=
  fun s => match m s with
           | (Ok a, s') => k a s'
           | (Throw e, s') => (Throw e, s')
           end.
Definition try_catch {S A} (m : M S A) (h : Error -> M S A) : M S A :=
  fun s => match m s with
           | (Ok a, s') => (Ok a, s')
           | (Throw e, s') => h e s'
           end.
Definition lift_outcome {S A} (o : outcome A) : M S A := fun s => (o, s).

Declare Scope js_scope.
Delimit Scope js_scope with js.
Notation "x <- m ;; k" := (bind m (fun x => k))
  (at level 100, m at next level, right associativity) : js_scope.
Notation "m ;;; k" := (bind m (fun _ => k))
  (at level 100, right associativity) : js_scope.
Local Open Scope js_scope.

(** ** The registry's data *)

(** [this.config], as produced by the configuration loader. *)
Record config : Type := mkConfig {
  serverName : string;
  version : string;
  debug : bool;
  dataDir : string;
  outputDir : string;
  customToolsDir : option string       (* config.tools?.customToolsDir *)
}.

(** What a handler closure reads of the registry it was created in:
    [this.config] and [this.tools.size]. *)
Record this_view : Type := mkView {
  this_config : option config;
  this_tools_size : nat
}.

Definition handler_fn : Type := this_view -> value -> M world value.

(** The descriptor passed to [registerTool]: the shape of the object
    literals of [loadBuiltInTools] and of the "Tool Schema" documented for
    custom tools ([name] and [description] strings, [inputSchema] an
    object, [handler] a function).  Any property may be missing. *)
Record tool : Type := mkTool {
  tool_name : option string;
  tool_description : option string;
  tool_inputSchema : option (list (string * value));
  tool_handler : option handler_fn
}.

(** The object stored in [this.tools] by [registerTool]. *)
Record entry : Type := mkEntry {
  name : string;
  description : value;
  inputSchema : value;
  handler : handler_fn
}.

(** The objects returned by [getTools]. *)
Record tool_info : Type := mkInfo {
  info_name : string;
  info_description : value;
  info_inputSchema : value
}.

(** A [Map] keeps its keys in insertion order; [set] on a present key
    replaces the value where it stands. *)
Definition Map (A : Type) : Type := list (string * A).
Definition Map_get {A} (k : string) (m : Map A) : option A := assoc k m.
Definition Map_set {A} (k : string) (a : A) (m : Map A) : Map A :=
  assoc_set k a m.
Definition Map_has {A} (k : string) (m : Map A) : bool :=
  match Map_get k m with Some _ => true | None => false end.
Definition Map_values {A} (m : Map A) : list A := map snd m.
Definition Map_keys {A} (m : Map A) : list string := map fst m.
Definition Map_size {A} (m : Map A) : nat := List.length m.

Record ToolRegistry : Type := mkRegistry {
  tools : Map entry;
  this_cfg : option config
}.

(** [constructor()] *)
Definition new_ToolRegistry : ToolRegistry :=
  {| tools := []; this_cfg := None |}.

Definition view (this : ToolRegistry) : this_view :=
  {| this_config := this_cfg this; this_tools_size := Map_size (tools this) |}.

(** The result of [import(path)]: the module namespace, of which the
    loader reads [default]. *)
Record module_ns : Type := mkModule { module_default : option tool }.

Definition opt_string (o : option string) : value :=
  match o with Some s => VStr s | None => VUndefined end.
Definition opt_object (o : option (list (string * value))) : value :=
  match o with Some ps => VObj ps | None => VUndefined end.
(** [!!tool.handler]: a function is truthy, a missing property is not. *)
Definition is_function (o : option handler_fn) : bool :=
  match o with Some _ => true | None => false end.

(** ** registerTool, getTools, executeTool, hasTool *)

Definition registerTool (t : tool) : M ToolRegistry unit := fun this =>
  if negb (truthy (opt_string (tool_name t))) || negb (is_function (tool_handler t))
  then (Throw (mkError "Tool must have a name and handler"), this)
  else
    match tool_name t, tool_handler t with
    | Some n, Some h =>
        (Ok tt,
         {| tools :=
              Map_set n
                {| name := n;
                   description :=
                     js_or (opt_string (tool_description t)) (VStr "");
                   inputSchema :=
                     js_or (opt_object (tool_inputSchema t))
                           (VObj [("type", VStr "object");
                                  ("properties", VObj [])]);
                   handler := h |}
                (tools this);
            this_cfg := this_cfg this |})
    | _, _ =>                 (* not reached: the guard threw *)
        (Throw (mkError "Tool must have a name and handler"), this)
    end.

Definition getTools (this : ToolRegistry) : list tool_info :=
  map (fun t => {| info_name := name t;
                   info_description := description t;
                   info_inputSchema := inputSchema t |})
      (Map_values (tools this)).

Definition hasTool (this : ToolRegistry) (n : string) : bool :=
  Map_has n (tools this).

(** Ghost step taken where the source evaluates [tool.handler(args)]. *)
Definition invoked (n : string) (args : value) : M world unit := fun w =>
  (Ok tt,
   {| files := files w; clock := clock w; ticks := ticks w;
      console := console w;
      invocations := invocations w ++ [(n, args)] |}).

Definition executeTool (this : ToolRegistry) (n : string) (args : value)
  : M world value :=
  match Map_get n (tools this) with
  | None => throw (mkError ("Tool '" +++ n +++ "' not found"))
  | Some t =>
      try_catch
        (invoked n args ;;; handler t (view this) args)
        (fun error =>
           throw (mkError ("Tool '" +++ n +++ "' execution failed: " +++
                           message error)))
  end.

(** ** Node.js services *)

(** Library functions the source calls and does not define. *)
Record Host : Type := mkHost {
  path_isAbsolute : string -> bool;
  path_join : string -> string -> string;
  process_cwd : string;
  process_uptime : value;
  import_ : string -> outcome module_ns;          (* await import(path) *)
  RegExp : value -> string -> outcome (value -> bool);
                                  (* new RegExp(pattern, flags), then .test *)
  toISOString : Z -> string;                      (* of a Date, by its time *)
  toLowerCase : string -> string;
  JSON_stringify : value -> string;
  JSON_stringify_pretty : value -> value;
                      (* JSON.stringify(v, null, 2); undefined for undefined *)
  Object_toString : value -> string;     (* String(v) for objects and arrays *)
  String_toInteger : string -> Z;              (* ToIntegerOrInfinity of text *)
  ErrorCode_InternalError : Z;                        (* of the MCP SDK *)
  McpError_message : Z -> string -> string
                        (* the message of new McpError(code, message) *)
}.

Definition existsSync (p : string) : M world bool := fun w =>
  (Ok (match files w p with Missing => false | _ => true end), w).

Definition readJson (p : string) : M world value := fun w =>
  match files w p with
  | Json v => (Ok v, w)
  | Missing =>
      (Throw (mkError ("ENOENT: no such file or directory, open '" +++ p +++ "'")),
       w)
  | Unparsable why => (Throw (mkError (p +++ ": " +++ why)), w)
  | Dir _ =>
      (Throw (mkError "EISDIR: illegal operation on a directory, read"), w)
  end.

Definition writeJson (p : string) (v : value) : M world unit := fun w =>
  match files w p with
  | Dir _ =>
      (Throw (mkError ("EISDIR: illegal operation on a directory, open '" +++
                       p +++ "'")), w)
  | _ =>
      (Ok tt,
       {| files := fun q => if (q =? p)%string then Json (jsonify v)
                            else files w q;
          clock := clock w; ticks := ticks w; console := console w;
          invocations := invocations w |})
  end.

Definition readdir (p : string) : M world (list string) := fun w =>
  match files w p with
  | Dir l => (Ok l, w)
  | Missing =>
      (Throw (mkError ("ENOENT: no such file or directory, scandir '" +++
                       p +++ "'")), w)
  | _ => (Throw (mkError ("ENOTDIR: not a directory, scandir '" +++
                          p +++ "'")), w)
  end.

(** [Date.now()], and the time of [new Date()]. *)
Definition Date_now : M world Z := fun w =>
  (Ok (clock w (ticks w)),
   {| files := files w; clock := clock w; ticks := S (ticks w);
      console := console w; invocations := invocations w |}).

Definition console_error (line : string) : M world unit := fun w =>
  (Ok tt,
   {| files := files w; clock := clock w; ticks := ticks w;
      console := console w ++ [line]; invocations := invocations w |}).

(** ** Array and string methods used by the handlers *)

Definition not_a_function {S A} (v : value) (expr meth : string) : M S A :=
  match v with
  | VUndefined | VNull =>
      throw (mkError ("Cannot read properties of " +++ describe v +++
                      " (reading '" +++ meth +++ "')"))
  | _ => throw (mkError (expr +++ "." +++ meth +++ " is not a function"))
  end.

Fixpoint filterM {S A} (p : A -> M S bool) (l : list A) : M S (list A) :=
  match l with
  | [] => ret []
  | x :: t =>
      keep <- p x ;;
      rest <- filterM p t ;;
      ret (if keep then x :: rest else rest)
  end.

Fixpoint someM {S A} (p : A -> M S bool) (l : list A) : M S bool :=
  match l with
  | [] => ret false
  | x :: t => found <- p x ;; if found then ret true else someM p t
  end.

(** [arr.filter(cb)] *)
Definition array_filter {S} (arr : value) (expr : string)
    (cb : value -> M S bool) : M S value :=
  match arr with
  | VArr l => kept <- filterM cb l ;; ret (VArr kept)
  | _ => not_a_function arr expr "filter"
  end.

(** [arr.some(cb)] *)
Definition array_some {S} (arr : value) (expr : string)
    (cb : value -> M S bool) : M S bool :=
  match arr with
  | VArr l => someM cb l
  | _ => not_a_function arr expr "some"
  end.

(** [arr.push(x)], giving the array as it stands afterwards. *)
Definition array_push {S} (arr : value) (expr : string) (x : value)
  : M S value :=
  match arr with
  | VArr l => ret (VArr (l ++ [x]))
  | _ => not_a_function arr expr "push"
  end.

Fixpoint includes (s sub : string) : bool :=
  if String.prefix sub s then true
  else match s with
       | EmptyString => false
       | String _ t => includes t sub
       end.

Definition endsWith (s suffix : string) : bool :=
  let n := String.length s in
  let m := String.length suffix in
  (m <=? n)%nat && (String.substring (n - m) m s =? suffix)%string.

Section Builtins.
Variable node : Host.

(** [String(v)], as a template literal interpolates [v]. *)
Definition ToString (v : value) : string :=
  match v with
  | VUndefined => "undefined"
  | VNull => "null"
  | VBool true => "true"
  | VBool false => "false"
  | VNum n => Z_toString n
  | VStr s => s
  | VArr _ | VObj _ => Object_toString node v
  end.

Definition ToIntegerOrInfinity (v : value) : Z :=
  match v with
  | VUndefined | VNull | VBool false => 0
  | VBool true => 1
  | VNum n => n
  | _ => String_toInteger node (ToString v)
  end.

(** The end index of [slice(0, e)] on [len] elements. *)
Definition slice_end (len : nat) (e : value) : nat :=
  let k := ToIntegerOrInfinity e in
  if (k <? 0)%Z then Z.to_nat (Z.max (Z.of_nat len + k) 0)
  else Nat.min (Z.to_nat k) len.

(** [v.slice(0, e)]: arrays and strings both have it. *)
Definition slice0 {S} (v : value) (expr : string) (e : value) : M S value :=
  match v with
  | VArr l => ret (VArr (firstn (slice_end (List.length l) e) l))
  | VStr s =>
      ret (VStr (String.substring 0 (slice_end (String.length s) e) s))
  | _ => not_a_function v expr "slice"
  end.

(** [path.join(this.config.dataDir, 'items.json')] *)
Definition dataFile (this : this_view) : M world string :=
  match this_config this with
  | None =>
      throw (mkError "Cannot read properties of null (reading 'dataDir')")
  | Some c => ret (path_join node (dataDir c) "items.json")
  end.

(** [s.toLowerCase()] *)
Definition string_toLowerCase {S} (v : value) (expr : string) : M S string :=
  match v with
  | VStr s => ret (toLowerCase node s)
  | _ => not_a_function v expr "toLowerCase"
  end.

(** ** The built-in handlers *)

Definition list_items_handler : handler_fn := fun this args =>
  p <- dataFile this ;;
  present <- existsSync p ;;
  if negb present then
    ret (VObj [("items", VArr []); ("count", VNum 0)])
  else
    data <- readJson p ;;
    data_items <- lift_outcome (get_prop data "items") ;;
    let items := js_or data_items (VArr []) in
    (* Apply filter if provided *)
    filter <- lift_outcome (get_prop args "filter") ;;
    items <- (if truthy filter then
                filterRegex <- lift_outcome (RegExp node filter "i") ;;
                array_filter items "items" (fun item =>
                  item_name <- lift_outcome (get_prop item "name") ;;
                  if filterRegex item_name then ret true
                  else
                    item_description <-
                      lift_outcome (get_prop item "description") ;;
                    ret (filterRegex item_description))
              else ret items) ;;
    (* Apply limit if provided *)
    limit <- lift_outcome (get_prop args "limit") ;;
    items <- (if truthy limit then slice0 items "items" limit
              else ret items) ;;
    count <- lift_outcome (get_prop items "length") ;;
    ret (VObj [("items", items); ("count", count)]).

Definition add_item_handler : handler_fn := fun this args =>
  p <- dataFile this ;;
  (* Load existing data *)
  present <- existsSync p ;;
  data <- (if present then readJson p
           else ret (VObj [("items", VArr [])])) ;;
  (* Create new item *)
  now <- Date_now ;;
  arg_name <- lift_outcome (get_prop args "name") ;;
  arg_description <- lift_outcome (get_prop args "description") ;;
  arg_metadata <- lift_outcome (get_prop args "metadata") ;;
  created <- Date_now ;;
  let newItem :=
    VObj [("id", VStr (Z_toString now));
          ("name", arg_name);
          ("description", arg_description);
          ("metadata", js_or arg_metadata (VObj []));
          ("createdAt", VStr (toISOString node created))] in
  (* Add to array: push changes the array that data.items refers to *)
  data_items <- lift_outcome (get_prop data "items") ;;
  pushed <- array_push data_items "data.items" newItem ;;
  data <- lift_outcome (set_prop data "items" pushed) ;;
  (* Save *)
  writeJson p data ;;;
  ret (VObj [("success", VBool true);
             ("item", newItem);
             ("message",
              VStr ("Item '" +++ ToString arg_name +++
                    "' added successfully"))]).

Definition remove_item_handler : handler_fn := fun this args =>
  p <- dataFile this ;;
  present <- existsSync p ;;
  if negb present then throw (mkError "No items found")
  else
    data <- readJson p ;;
    data_items <- lift_outcome (get_prop data "items") ;;
    initialLength <- lift_outcome (get_prop data_items "length") ;;
    (* Filter out the item *)
    kept <- array_filter data_items "data.items" (fun item =>
              item_id <- lift_outcome (get_prop item "id") ;;
              arg_id <- lift_outcome (get_prop args "id") ;;
              ret (negb (strict_eq item_id arg_id))) ;;
    data <- lift_outcome (set_prop data "items" kept) ;;
    kept_length <- lift_outcome (get_prop kept "length") ;;
    if strict_eq kept_length initialLength then
      arg_id <- lift_outcome (get_prop args "id") ;;
      throw (mkError ("Item with ID '" +++ ToString arg_id +++
                      "' not found"))
    else
      (* Save *)
      writeJson p data ;;;
      arg_id <- lift_outcome (get_prop args "id") ;;
      ret (VObj [("success", VBool true);
                 ("message",
                  VStr ("Item '" +++ ToString arg_id +++
                        "' removed successfully"))]).

Definition search_items_handler : handler_fn := fun this args =>
  p <- dataFile this ;;
  present <- existsSync p ;;
  if negb present then
    ret (VObj [("results", VArr []); ("count", VNum 0)])
  else
    data <- readJson p ;;
    arg_query <- lift_outcome (get_prop args "query") ;;
    query <- string_toLowerCase arg_query "args.query" ;;
    arg_fields <- lift_outcome (get_prop args "fields") ;;
    let fields := js_or arg_fields (VArr [VStr "name"; VStr "description"]) in
    data_items <- lift_outcome (get_prop data "items") ;;
    results <- array_filter data_items "data.items" (fun item =>
      array_some fields "fields" (fun field =>
        v <- lift_outcome (get_prop item (ToString field)) ;;
        match v with
        | VStr s => ret (includes (toLowerCase node s) query)
        | VNull | VArr _ | VObj _ =>
            ret (includes (toLowerCase node (JSON_stringify node v)) query)
        | _ => ret false
        end)) ;;
    count <- lift_outcome (get_prop results "length") ;;
    ret (VObj [("results", results); ("count", count)]).

Definition get_status_handler : handler_fn := fun this _ =>
  p <- dataFile this ;;
  present <- existsSync p ;;
  itemCount <- (if present then
                  data <- readJson p ;;
                  data_items <- lift_outcome (get_prop data "items") ;;
                  n <- (match data_items with
                        | VUndefined | VNull => ret VUndefined
                        | _ => lift_outcome (get_prop data_items "length")
                        end) ;;
                  ret (js_or n (VNum 0))
                else ret (VNum 0)) ;;
  match this_config this with
  | None =>
      throw (mkError "Cannot read properties of null (reading 'serverName')")
  | Some c =>
      ret (VObj
        [("serverName", VStr (serverName c));
         ("version", VStr (version c));
         ("uptime", process_uptime node);
         ("statistics",
          VObj [("totalItems", itemCount);
                ("registeredTools",
                 VNum (Z.of_nat (this_tools_size this)))]);
         ("configuration",
          VObj [("dataDir", VStr (dataDir c));
                ("outputDir", VStr (outputDir c));
                ("debug", VBool (debug c))])])
  end.

(** ** loadBuiltInTools *)

Definition string_prop (descr : string) : value :=
  VObj [("type", VStr "string"); ("description", VStr descr)].

Definition list_items_tool : tool :=
  {| tool_name := Some "list_items";
     tool_description := Some "List all items in the system";
     tool_inputSchema := Some
       [("type", VStr "object");
        ("properties",
         VObj [("filter", string_prop "Optional filter pattern");
               ("limit",
                VObj [("type", VStr "number");
                      ("description",
                       VStr "Maximum number of items to return")])])];
     tool_handler := Some list_items_handler |}.

Definition add_item_tool : tool :=
  {| tool_name := Some "add_item";
     tool_description := Some "Add a new item to the system";
     tool_inputSchema := Some
       [("type", VStr "object");
        ("properties",
         VObj [("name", string_prop "Item name");
               ("description", string_prop "Item description");
               ("metadata",
                VObj [("type", VStr "object");
                      ("description", VStr "Additional metadata")])]);
        ("required", VArr [VStr "name"; VStr "description"])];
     tool_handler := Some add_item_handler |}.

Definition remove_item_tool : tool :=
  {| tool_name := Some "remove_item";
     tool_description := Some "Remove an item from the system";
     tool_inputSchema := Some
       [("type", VStr "object");
        ("properties", VObj [("id", string_prop "Item ID to remove")]);
        ("required", VArr [VStr "id"])];
     tool_handler := Some remove_item_handler |}.

Definition search_items_tool : tool :=
  {| tool_name := Some "search_items";
     tool_description := Some "Search items with advanced query";
     tool_inputSchema := Some
       [("type", VStr "object");
        ("properties",
         VObj [("query", string_prop "Search query");
               ("fields",
                VObj [("type", VStr "array");
                      ("items", VObj [("type", VStr "string")]);
                      ("description", VStr "Fields to search in")])]);
        ("required", VArr [VStr "query"])];
     tool_handler := Some search_items_handler |}.

Definition get_status_tool : tool :=
  {| tool_name := Some "get_status";
     tool_description := Some "Get system status and statistics";
     tool_inputSchema := Some
       [("type", VStr "object"); ("properties", VObj [])];
     tool_handler := Some get_status_handler |}.

Definition builtInTools : list tool :=
  [list_items_tool; add_item_tool; remove_item_tool; search_items_tool;
   get_status_tool].

Definition loadBuiltInTools : M ToolRegistry unit :=
  registerTool list_items_tool ;;;
  registerTool add_item_tool ;;;
  registerTool remove_item_tool ;;;
  registerTool search_items_tool ;;;
  registerTool get_status_tool.

(** ** loadCustomTools and initialize *)

(** The loader works on the registry and the machine together. *)
Definition on_world {A} (m : M world A) : M (ToolRegistry * world) A :=
  fun s => match m (snd s) with (o, w') => (o, (fst s, w')) end.
Definition on_registry {A} (m : M ToolRegistry A)
  : M (ToolRegistry * world) A :=
  fun s => match m (fst s) with (o, r') => (o, (r', snd s)) end.

(** [files.filter(f => f.endsWith('.js'))] *)
Definition toolFiles (listing : list string) : list string :=
  filter (fun f => endsWith f ".js") listing.

(** The body of the [for] loop, with its [try]/[catch]. *)
Definition load_file (absolutePath file : string)
  : M (ToolRegistry * world) unit :=
  try_catch
    (let toolPath := path_join node absolutePath file in
     t <- lift_outcome (import_ node toolPath) ;;
     match module_default t with
     | Some d =>
         on_registry (registerTool d) ;;;
         on_world (console_error ("Loaded custom tool from: " +++ file))
     | None => ret tt
     end)
    (fun error =>
       on_world (console_error ("Failed to load custom tool " +++ file +++
                                ": " +++ message error))).

Fixpoint for_of {S A} (l : list A) (body : A -> M S unit) : M S unit :=
  match l with
  | [] => ret tt
  | x :: t => body x ;;; for_of t body
  end.

Definition absolute (toolsDir : string) : string :=
  if path_isAbsolute node toolsDir then toolsDir
  else path_join node (process_cwd node) toolsDir.

Definition loadCustomTools (toolsDir : string)
  : M (ToolRegistry * world) unit :=
  let absolutePath := absolute toolsDir in
  present <- on_world (existsSync absolutePath) ;;
  if negb present then
    on_world (console_error ("Custom tools directory not found: " +++
                             absolutePath))
  else
    listing <- on_world (readdir absolutePath) ;;
    for_of (toolFiles listing) (load_file absolutePath).

Definition set_config (c : config) : M ToolRegistry unit := fun this =>
  (Ok tt, {| tools := tools this; this_cfg := Some c |}).

Definition initialize (c : config) : M (ToolRegistry * world) unit :=
  on_registry (set_config c) ;;;
  (* Load built-in tools *)
  on_registry loadBuiltInTools ;;;
  (* Load custom tools if directory exists *)
  if truthy (opt_string (customToolsDir c)) then
    match customToolsDir c with
    | Some d => loadCustomTools d
    | None => ret tt
    end
  else ret tt.

(** ** The server's request handlers ([src/server/index.js]) *)

Inductive log_level : Type := info | error.

(** [level.toUpperCase()] *)
Definition level_upper (level : log_level) : string :=
  match level with info => "INFO" | error => "ERROR" end.

Definition log (CONFIG : config) (msg : string) (level : log_level)
  : M world unit :=
  if debug CONFIG || (match level with error => true | info => false end)
  then
    t <- Date_now ;;
    console_error ("[" +++ toISOString node t +++ "] " +++
                   level_upper level +++ ": " +++ msg)
  else ret tt.

(** [new McpError(code, msg)] *)
Definition new_McpError (code : Z) (msg : string) : Error :=
  {| message := McpError_message node code msg; mcp_code := Some code |}.


(** The handler of [CallToolRequestSchema], for [request.params] holding
    [name] and [arguments], calling into the registry object
    [toolRegistry]. *)
Definition CallTool (CONFIG : config) (toolRegistry : ToolRegistry)
    (n : string) (args : value) : M world value :=
  log CONFIG ("Executing tool: " +++ n) info ;;;
  try_catch
    (result <- executeTool toolRegistry n args ;;
     ret (VObj [("content",
                 VArr [VObj [("type", VStr "text");
                             ("text",
                              match result with
                              | VStr _ => result
                              | _ => JSON_stringify_pretty node result
                              end)]])]))
    (fun err =>
       log CONFIG ("Error executing tool " +++ n +++ ": " +++ message err)
           error ;;;
       match mcp_code err with
       | Some _ => throw err
       | None =>
           throw (new_McpError (ErrorCode_InternalError node)
                    ("Tool execution failed: " +++ message err))
       end).
End Builtins.

(** ** Vocabulary of the statements *)


(** The world in which a handler starts running when [executeTool]
    calls it. *)
Definition entering (n : string) (args : value) (w : world) : world :=
  snd (invoked n args w).

(** [registerTool] takes the descriptor. *)
Definition accepts (t : tool) : bool :=
  match tool_name t, tool_handler t with
  | Some n, Some _ => negb (n =? "")%string
  | _, _ => false
  end.

(** The object [registerTool] stores for a descriptor it takes. *)
Definition entry_of (t : tool) : option entry :=
  match tool_name t, tool_handler t with
  | Some n, Some h =>
      Some {| name := n;
              description := js_or (opt_string (tool_description t)) (VStr "");
              inputSchema :=
                js_or (opt_object (tool_inputSchema t))
                      (VObj [("type", VStr "object"); ("properties", VObj [])]);
              handler := h |}
  | _, _ => None
  end.


(** Keys are distinct and each object sits under its own name. *)
Definition well_keyed (m : Map entry) : Prop :=
  NoDup (Map_keys m) /\ Forall (fun ke => name (snd ke) = fst ke) m.

(** The registry after the calls [registerTool(t1)], ..., [registerTool(tn)]
    in this order, a failed call being caught by its caller. *)
Definition registrations (ts : list tool) (this : ToolRegistry)
  : ToolRegistry :=
  fold_left (fun r t => snd (registerTool t r)) ts this.

(** The last descriptor of [ts] that [registerTool] takes under name [n]. *)
Definition last_registered (n : string) (ts : list tool) : option tool :=
  fold_left
    (fun acc t =>
       if accepts t && (match tool_name t with
                        | Some k => (k =? n)%string
                        | None => false
                        end)
       then Some t else acc)
    ts None.

(** What [getTools] advertises for a descriptor registered under [n]. *)
Definition advertised (n : string) (t : tool) : tool_info :=
  {| info_name := n;
     info_description :=
       VStr (match tool_description t with Some s => s | None => "" end);
     info_inputSchema :=
       match tool_inputSchema t with
       | Some ps => VObj ps
       | None => VObj [("type", VStr "object"); ("properties", VObj [])]
       end |}.

(** A lookup that "returns the descriptor": every property as given. *)
Definition same_descriptor (t : tool) (e : entry) : Prop :=
  tool_name t = Some (name e) /\
  opt_string (tool_description t) = description e /\
  opt_object (tool_inputSchema t) = inputSchema e /\
  tool_handler t = Some (handler e).


Section LoaderVocabulary.
Variable node : Host.
Variable absolutePath : string.

(** The default exports the loader hands to [registerTool], file by
    file in the order given. *)
Definition exports (fs : list string) : list tool :=
  flat_map (fun f =>
              match import_ node (path_join node absolutePath f) with
              | Ok m => match module_default m with
                        | Some d => [d]
                        | None => []
                        end
              | Throw _ => []
              end) fs.

(** The console lines the loader writes for one file. *)
Definition diagnostic (f : string) : list string :=
  match import_ node (path_join node absolutePath f) with
  | Throw e => ["Failed to load custom tool " +++ f +++ ": " +++ message e]
  | Ok m =>
      match module_default m with
      | None => []
      | Some d =>
          if accepts d then ["Loaded custom tool from: " +++ f]
          else ["Failed to load custom tool " +++ f +++
                ": Tool must have a name and handler"]
      end
  end.
End LoaderVocabulary.

(** The machine after the server's [log(msg, level)]. *)
Definition after_log (node : Host) (CONFIG : config) (msg : string)
    (level : log_level) (w : world) : world :=
  snd (log node CONFIG msg level w).

(** The machine after the lines [ls] went to standard error. *)
Definition logged (ls : list string) (w : world) : world :=
  {| files := files w; clock := clock w; ticks := ticks w;
     console := console w ++ ls; invocations := invocations w |}.

Definition is_record (v : value) : bool :=
  match v with VObj _ => true | _ => false end.

(** The file at [p] holds a JSON document [{items: [...]}] whose items are
    the records [l]. *)
Definition stored_collection (p : string) (w : world) (l : list value)
  : Prop :=
  exists props,
    files w p = Json (VObj props) /\
    assoc "items" props = Some (VArr l) /\
    is_json (VObj props) = true /\
    forallb is_record l = true.

(** [item.id] of a stored record. *)
Definition id_of (item : value) : value :=
  match get_prop item "id" with Ok v => v | Throw _ => VUndefined end.

(** An argument as [if (v)] lets it act: itself when truthy, and as good
    as missing when not. *)
Definition effective (v : value) : value :=
  if truthy v then v else VUndefined.

(** The test [remove_item] keeps a record by: [item.id !== X]. *)
Definition not_matching (X : value) (item : value) : bool :=
  negb (strict_eq (id_of item) X).

(** The record [add_item] builds on machine [w] from the arguments'
    [name], [description] and [metadata]. *)
Definition new_item (node : Host) (w : world) (an ad am : value) : value :=
  VObj [("id", VStr (Z_toString (clock w (ticks w))));
        ("name", an);
        ("description", ad);
        ("metadata", js_or am (VObj []));
        ("createdAt", VStr (toISOString node (clock w (S (ticks w)))))].

(** ** Sample inputs *)

Module Sample.
(** A host with no custom modules. *)
Definition node : Host :=
  {| path_isAbsolute := fun p => String.prefix "/" p;
     path_join := fun a b => a +++ "/" +++ b;
     process_cwd := "/srv";
     process_uptime := VNum 12;
     import_ := fun p => Throw (mkError ("Cannot find module '" +++ p +++ "'"));
     RegExp := fun pattern _ =>
       match pattern with
       | VStr s => Ok (fun v => match v with
                                | VStr t => includes t s
                                | _ => false
                                end)
       | _ => Throw (mkError "Invalid regular expression")
       end;
     toISOString := fun t => "T+" +++ Z_toString t;
     toLowerCase := fun s => s;
     JSON_stringify := fun _ => "{}";
     JSON_stringify_pretty := fun v =>
       match v with VUndefined => VUndefined | _ => VStr "{}" end;
     Object_toString := fun _ => "[object Object]";
     String_toInteger := fun _ => 0%Z;
     ErrorCode_InternalError := (-32603)%Z;
     McpError_message := fun _ m => m |}.

Definition cfg (custom : option string) : config :=
  {| serverName := "mcp-template-server"; version := "1.0.0";
     debug := false; dataDir := "/data"; outputDir := "/output";
     customToolsDir := custom |}.

Definition item (i n d : string) : value :=
  VObj [("id", VStr i); ("name", VStr n); ("description", VStr d);
        ("metadata", VObj []); ("createdAt", VStr "T+0")].

Definition two_items : list value :=
  [item "1" "pen" "blue"; item "2" "cup" "red"].

(** A machine whose clock stands at one millisecond. *)
Definition machine (fs : string -> file_state) : world :=
  {| files := fs; clock := fun _ => 1700000000000%Z; ticks := 0;
     console := []; invocations := [] |}.

Definition no_files : string -> file_state := fun _ => Missing.

Definition with_items (l : list value) : string -> file_state :=
  fun p => if (p =? "/data/items.json")%string
           then Json (VObj [("items", VArr l)]) else Missing.

Definition with_dir (entries : list string) : string -> file_state :=
  fun p => if (p =? "/tools")%string then Dir entries else Missing.

(** What a built-in handler reads of the started registry. *)
Definition this : this_view :=
  {| this_config := Some (cfg None); this_tools_size := 5 |}.

Definition echo : handler_fn := fun _ args => ret args.

(** A descriptor with a name and a handler and nothing else. *)
Definition bare : tool :=
  {| tool_name := Some "x"; tool_description := None;
     tool_inputSchema := None; tool_handler := Some echo |}.

Definition described (n d : string) : tool :=
  {| tool_name := Some n; tool_description := Some d;
     tool_inputSchema := None; tool_handler := Some echo |}.

(** A host whose modules are given by file path. *)
Definition node_with (modules : string -> outcome module_ns) : Host :=
  {| path_isAbsolute := path_isAbsolute node;
     path_join := path_join node;
     process_cwd := process_cwd node;
     process_uptime := process_uptime node;
     import_ := modules;
     RegExp := RegExp node;
     toISOString := toISOString node;
     toLowerCase := toLowerCase node;
     JSON_stringify := JSON_stringify node;
     JSON_stringify_pretty := JSON_stringify_pretty node;
     Object_toString := Object_toString node;
     String_toInteger := String_toInteger node;
     ErrorCode_InternalError := ErrorCode_InternalError node;
     McpError_message := McpError_message node |}.


(** [good.js] exports a tool, [empty.js] has no default export,
    [broken.js] fails to load, [shapeless.js] exports an object without
    a handler. *)
Definition modules_mixed (p : string) : outcome module_ns :=
  if (p =? "/tools/good.js")%string then
    Ok {| module_default := Some (described "good" "a good tool") |}
  else if (p =? "/tools/empty.js")%string then
    Ok {| module_default := None |}
  else if (p =? "/tools/shapeless.js")%string then
    Ok {| module_default :=
            Some {| tool_name := Some "shapeless"; tool_description := None;
                    tool_inputSchema := None; tool_handler := None |} |}
  else Throw (mkError "Unexpected token '}'").

(** The registry after [initialize] on a machine without custom tools. *)
Definition started (w : world) : ToolRegistry * world :=
  snd (initialize node (cfg None) (new_ToolRegistry, w)).
End Sample.

(** ** The configuration loader ([src/config/config-loader.js]) *)

(** What the loader reads of the process, and run-time wording it does
    not define. *)
Record Process : Type := mkProcess {
  process_env : string -> option string;          (* process.env[name] *)
  loader_dirname : string;          (* __dirname of config-loader.js *)
  Number_of_string : string -> option Z;
                      (* Number(s): [None] for NaN; integers as in [value] *)
  invalid_path_message : value -> string
                 (* the TypeError of fs and path for a path of a wrong type *)
}.

(** [this.config] is an object from the constructor on ([{}], then the
    result of [getDefaults] and of [deepMerge]); it is kept as its
    property list. *)
Record ConfigLoader : Type := mkLoader {
  loader_config : list (string * value);
  configPath : option string
}.

(** [constructor()] *)
Definition new_ConfigLoader : ConfigLoader :=
  {| loader_config := []; configPath := None |}.

(** [o[k]] on an object given by its properties. *)
Definition prop (ps : list (string * value)) (k : string) : value :=
  match assoc k ps with Some x => x | None => VUndefined end.

(** [isObject(item)]: [item && typeof item === 'object' &&
    !Array.isArray(item)], which is [item] itself when it is falsy. *)
Definition isObject (item : value) : value :=
  if truthy item
  then VBool (match item with VObj _ => true | _ => false end)
  else item.

Fixpoint indexed_from (i : nat) (l : list value) : list (string * value) :=
  match l with
  | [] => []
  | x :: t => (Z_toString (Z.of_nat i), x) :: indexed_from (S i) t
  end.

(** The properties of [Object.assign({}, v)]: the own enumerable ones of
    [v], which for an array or a string are its indices. *)
Definition assign_empty (v : value) : list (string * value) :=
  match v with
  | VObj ps => ps
  | VArr l => indexed_from 0 l
  | VStr s =>
      indexed_from 0
        (map (fun c => VStr (String c EmptyString)) (list_ascii_of_string s))
  | _ => []
  end.

(** The names every object inherits from [Object.prototype]. *)
Definition Object_prototype_names : list string :=
  ["constructor"; "__defineGetter__"; "__defineSetter__"; "hasOwnProperty";
   "__lookupGetter__"; "__lookupSetter__"; "isPrototypeOf";
   "propertyIsEnumerable"; "toString"; "valueOf"; "__proto__";
   "toLocaleString"].

(** The keys of the object [v], and of the objects in it, are none of
    the inherited names. *)
Fixpoint own_names_only (v : value) : bool :=
  match v with
  | VObj ps =>
      forallb (fun kx =>
                 negb (existsb (String.eqb (fst kx)) Object_prototype_names)
                 && own_names_only (snd kx)) ps
  | _ => true
  end.

(** [deepMerge(target, source)], as the properties of the object it
    returns.  The keys of [source] are visited in order, each with its
    value [source[key]].  [key in target] is taken as the test for an own
    property, which it is for the keys that [own_names_only] admits.  The
    list is in the order of the properties when no key is an array
    index. *)
Fixpoint deepMerge_props (target source : value) {struct source}
  : list (string * value) :=
  let output := assign_empty target in
  if truthy (isObject target) && truthy (isObject source) then
    match target, source with
    | VObj tps, VObj sps =>
        fold_left
          (fun output kv =>
             let key := fst kv in
             if truthy (isObject (snd kv)) then
               match assoc key tps with
               | None => assoc_set key (snd kv) output
               | Some tv =>
                   assoc_set key (VObj (deepMerge_props tv (snd kv))) output
               end
             else assoc_set key (snd kv) output)
          sps output
    | _, _ => output
    end
  else output.

Definition deepMerge (target source : value) : value :=
  VObj (deepMerge_props target source).

Definition getDefaults : list (string * value) :=
  [("serverName", VStr "mcp-server");
   ("version", VStr "1.0.0");
   ("debug", VBool false);
   ("dataDir", VStr "./data");
   ("outputDir", VStr "./output");
   ("maxFileSize", VNum (10 * 1024 * 1024));
   ("timeout", VNum 30000);
   ("tools", VObj [("enabled", VBool true);
                   ("customToolsDir", VStr "./custom-tools")])].

Definition envMapping : list (string * string) :=
  [("MCP_SERVER_NAME", "serverName");
   ("MCP_VERSION", "version");
   ("MCP_DEBUG", "debug");
   ("MCP_DATA_DIR", "dataDir");
   ("MCP_OUTPUT_DIR", "outputDir");
   ("MCP_MAX_FILE_SIZE", "maxFileSize");
   ("MCP_TIMEOUT", "timeout")].

(** [fs.ensureDirSync(p)] *)
Definition ensureDirSync (p : string) : M world unit := fun w =>
  match files w p with
  | Missing =>
      if (p =? "")%string then
        (Throw (mkError "ENOENT: no such file or directory, mkdir ''"), w)
      else
      (Ok tt,
       {| files := fun q => if (q =? p)%string then Dir [] else files w q;
          clock := clock w; ticks := ticks w; console := console w;
          invocations := invocations w |})
  | Dir _ => (Ok tt, w)
  | _ => (Throw (mkError ("EEXIST: file already exists, mkdir '" +++ p +++ "'")),
          w)
  end.

Section Config.
Variable node : Host.
Variable sys : Process.

(** [parseValue(value)], for the strings of the environment. *)
Definition parseValue (v : string) : value :=
  if (v =? "true")%string then VBool true
  else if (v =? "false")%string then VBool false
  else match Number_of_string sys v with
       | Some n => VNum n            (* !isNaN(value): Number(value) *)
       | None => VStr v
       end.

(** [v <= 0], the operand converted to a number. *)
Definition le_zero (v : value) : bool :=
  match v with
  | VUndefined => false
  | VNull => true
  | VBool b => negb b
  | VNum n => (n <=? 0)%Z
  | VStr s =>
      match Number_of_string sys s with
      | Some n => (n <=? 0)%Z
      | None => false
      end
  | VArr _ | VObj _ =>
      match Number_of_string sys (Object_toString node v) with
      | Some n => (n <=? 0)%Z
      | None => false
      end
  end.

Definition in_world {A} (m : M world A) : M (ConfigLoader * world) A :=
  fun s => match m (snd s) with (o, w') => (o, (fst s, w')) end.

(** [this.config = ps] *)
Definition set_loader_config (ps : list (string * value))
  : M (ConfigLoader * world) unit :=
  fun s => (Ok tt, ({| loader_config := ps; configPath := configPath (fst s) |},
                    snd s)).

Definition locations : list (option string) :=
  [process_env sys "MCP_CONFIG_PATH";
   Some (path_join node (process_cwd node) "mcp-config.json");
   Some (path_join node (process_cwd node) "config.json");
   Some (path_join node (loader_dirname sys) "../../config.json");
   Some "/etc/mcp-server/config.json"].

(** The [for] loop of [findConfigFile] over the locations left. *)
Fixpoint findConfigFile_in (ls : list (option string))
  : M (ConfigLoader * world) (option string) :=
  match ls with
  | [] => ret None
  | location :: rest =>
      fun s =>
        match location with
        | Some p =>
            if truthy (VStr p) &&
               (match files (snd s) p with Missing => false | _ => true end)
            then (Ok (Some p),
                  ({| loader_config := loader_config (fst s);
                      configPath := Some p |}, snd s))
            else findConfigFile_in rest s
        | None => findConfigFile_in rest s
        end
  end.

Definition findConfigFile : M (ConfigLoader * world) (option string) :=
  findConfigFile_in locations.

Definition loadConfigFile (filePath : string)
  : M (ConfigLoader * world) unit :=
  try_catch
    (fileConfig <- in_world (readJson filePath) ;;
     (fun s =>
        set_loader_config
          (deepMerge_props (VObj (loader_config (fst s))) fileConfig) s) ;;;
     in_world (console_error ("Loaded configuration from: " +++ filePath)))
    (fun err =>
       in_world (console_error ("Failed to load config file: " +++
                                message err))).

(** The body of the loop of [loadEnvironmentVariables].  Every key of
    [envMapping] is a single segment, for which
    [setNestedValue(this.config, configKey, v)] runs no round of its loop
    and is [this.config[configKey] = v]. *)
Definition load_variable (entry : string * string)
  : M (ConfigLoader * world) unit :=
  match process_env sys (fst entry) with
  | Some v =>
      if truthy (VStr v) then
        fun s =>
          set_loader_config
            (assoc_set (snd entry) (parseValue v) (loader_config (fst s))) s
      else ret tt
  | None => ret tt
  end.

Definition loadEnvironmentVariables : M (ConfigLoader * world) unit :=
  for_of envMapping load_variable.

(** One round of the loop over the directories of [validateConfig]. *)
Definition ensure_directory (dir : value) : M world unit :=
  match dir with
  | VStr p =>
      present <- existsSync p ;;
      if negb present then ensureDirSync p else ret tt
  | _ =>                  (* existsSync is false for what is not a path *)
      throw (mkError (invalid_path_message sys dir))
  end.

Definition validateConfig : M (ConfigLoader * world) unit := fun s =>
  let this_config := loader_config (fst s) in
  (in_world
     (for_of [prop this_config "dataDir"; prop this_config "outputDir"]
             ensure_directory) ;;;
   if le_zero (prop this_config "maxFileSize") then
     throw (mkError "maxFileSize must be positive")
   else if le_zero (prop this_config "timeout") then
     throw (mkError "timeout must be positive")
   else ret tt) s.

Definition loadConfig : M (ConfigLoader * world) value :=
  (* 1. Load defaults *)
  set_loader_config getDefaults ;;;
  (* 2. Load from config file *)
  configFile <- findConfigFile ;;
  (match configFile with
   | Some p => loadConfigFile p
   | None => ret tt
   end) ;;;
  (* 3. Override with environment variables *)
  loadEnvironmentVariables ;;;
  (* 4. Validate configuration *)
  validateConfig ;;;
  fun s => (Ok (VObj (loader_config (fst s))), s).
End Config.

(** ** Vocabulary of the further statements *)

(** [item[k]] of a stored record. *)
Definition field_of (item : value) (k : string) : value :=
  match get_prop item k with Ok v => v | Throw _ => VUndefined end.

(** The test of [search_items] on one field value, for the lower-cased
    query. *)
Definition field_matches (node : Host) (query : string) (v : value) : bool :=
  match v with
  | VStr s => includes (toLowerCase node s) query
  | VNull | VArr _ | VObj _ =>
      includes (toLowerCase node (JSON_stringify node v)) query
  | _ => false
  end.

(** A computation that leaves its state as it found it. *)
Definition read_only {S A} (m : M S A) : Prop := forall s, snd (m s) = s.

(** Two machines that differ at most in the file at [p] and in the number
    of clock readings taken. *)
Definition same_but_file (p : string) (w w' : world) : Prop :=
  (forall q, q <> p -> files w' q = files w q) /\
  clock w' = clock w /\ console w' = console w /\
  invocations w' = invocations w.

(** A computation on the machine that changes at most the file at [p]
    and the number of clock readings. *)
Definition confined_to {A} (p : string) (m : M world A) : Prop :=
  forall w, same_but_file p w (snd (m w)).

(** A computation on the machine that changes no file. *)
Definition keeps_files {A} (m : M world A) : Prop :=
  forall w, files (snd (m w)) = files w.

(** A computation that has changed no file when it throws. *)
Definition quiet_failure {A} (m : M world A) : Prop :=
  forall w e w', m w = (Throw e, w') -> files w' = files w.

(** The names [getTools] lists, in order. *)
Definition listed_names (this : ToolRegistry) : list string :=
  map info_name (getTools this).

(** The test of [list_items] on one record, for the compiled pattern. *)
Definition matches (test : value -> bool) (item : value) : bool :=
  test (field_of item "name") || test (field_of item "description").

(** What [if (limit) items = items.slice(0, limit)] leaves of [l]. *)
Definition limited (node : Host) (k : value) (l : list value) : list value :=
  if truthy k then firstn (slice_end node (List.length l) k) l else l.

(** The object [{ <key>: items, count: items.length }]. *)
Definition counted (key : string) (items : list value) : value :=
  VObj [(key, VArr items); ("count", VNum (Z.of_nat (List.length items)))].

(** The test of [search_items] on one record, for the lower-cased query
    and the fields given. *)
Definition found_in (node : Host) (query : string) (fields : list value)
    (item : value) : bool :=
  existsb (fun field =>
             field_matches node query (field_of item (ToString node field)))
          fields.

(** ** Sample process *)

Module SampleConfig.
(** A process with the environment [env], whose numbers are written in
    plain decimal. *)
Definition sys_with (env : string -> option string) : Process :=
  {| process_env := env;
     loader_dirname := "/app/src/config";
     Number_of_string := fun s =>
       option_map Z.of_int (NilZero.int_of_string s);
     invalid_path_message := fun _ =>
       "The path argument must be of type string" |}.

(** A machine on which only [p] exists, a file holding [v]. *)
Definition only_file (p : string) (v : value) : world :=
  Sample.machine (fun q => if (q =? p)%string then Json v else Missing).
End SampleConfig.

(** * Properties *)

(** ** Strings *)





(** ** The Map *)

Section MapFacts.
Context {A : Type}.
Implicit Types (m : Map A) (k : string) (a : A).

Lemma Map_get_set_same k a m : Map_get k (Map_set k a m) = Some a.
Proof.
  unfold Map_get, Map_set.
  induction m as [|[k' a'] t IH]; simpl.
  - now rewrite String.eqb_refl.
  - destruct (k =? k')%string eqn:E; simpl.
    + now rewrite String.eqb_refl.
    + now rewrite E.
Qed.

Lemma Map_get_set_other k k' a m :
  k' <> k -> Map_get k' (Map_set k a m) = Map_get k' m.
Proof.
  intros Hne. apply String.eqb_neq in Hne. unfold Map_get, Map_set.
  induction m as [|[k0 a0] t IH]; simpl.
  - now rewrite Hne.
  - destruct (k =? k0)%string eqn:E; simpl.
    + apply String.eqb_eq in E. subst k0. now rewrite Hne.
    + now rewrite IH.
Qed.

Lemma Map_get_None_keys k m : Map_get k m = None <-> ~ In k (Map_keys m).
Proof.
  unfold Map_get, Map_keys.
  induction m as [|[k0 a0] t IH]; simpl.
  - tauto.
  - destruct (k =? k0)%string eqn:E.
    + apply String.eqb_eq in E. subst. split; [discriminate | tauto].
    + apply String.eqb_neq in E. rewrite IH. split.
      * intros H [H1 | H1]; [congruence | tauto].
      * tauto.
Qed.

(** [set] keeps the key order: a present key stays where it is, a new
    key goes last. *)
Lemma Map_keys_set k a m :
  Map_keys (Map_set k a m) =
  if Map_has k m then Map_keys m else Map_keys m ++ [k].
Proof.
  unfold Map_has, Map_get, Map_keys, Map_set.
  induction m as [|[k0 a0] t IH]; simpl.
  - reflexivity.
  - destruct (k =? k0)%string eqn:E; simpl.
    + apply String.eqb_eq in E. now subst.
    + rewrite IH. now destruct (assoc k t).
Qed.

Lemma Forall_Map_set (P : string * A -> Prop) k a m :
  P (k, a) -> Forall P m -> Forall P (Map_set k a m).
Proof.
  intros Hka. unfold Map_set.
  induction 1 as [|[k0 a0] t H0 Ht IH]; simpl.
  - now constructor.
  - destruct (k =? k0)%string; constructor; assumption.
Qed.

Lemma NoDup_Map_set k a m :
  NoDup (Map_keys m) -> NoDup (Map_keys (Map_set k a m)).
Proof.
  intros Hnd. rewrite Map_keys_set. unfold Map_has.
  destruct (Map_get k m) eqn:E; [assumption |].
  apply Map_get_None_keys in E.
  apply NoDup_app; [assumption | repeat constructor; simpl; tauto |].
  intros x Hx [<- | []]. contradiction.
Qed.



End MapFacts.

(** ** registerTool *)

Lemma accepts_iff (t : tool) :
  accepts t = false <->
  tool_name t = None \/ tool_name t = Some "" \/ tool_handler t = None.
Proof.
  unfold accepts.
  destruct (tool_name t) as [n|], (tool_handler t) as [h|]; simpl;
    try (split; [auto | reflexivity]).
  destruct (n =? "")%string eqn:E; simpl.
  - apply String.eqb_eq in E. subst. split; auto.
  - apply String.eqb_neq in E. split; [discriminate |].
    intros [H | [H | H]]; congruence.
Qed.

Lemma registerTool_accepted (t : tool) (this : ToolRegistry) :
  accepts t = true ->
  exists n e,
    tool_name t = Some n /\ entry_of t = Some e /\ name e = n /\
    registerTool t this =
      (Ok tt, {| tools := Map_set n e (tools this);
                 this_cfg := this_cfg this |}).
Proof.
  unfold accepts, registerTool, entry_of.
  destruct (tool_name t) as [n|]; [| discriminate].
  destruct (tool_handler t) as [h|]; [| discriminate].
  intros H. cbn [opt_string truthy is_function]. rewrite H. simpl. eauto 6.
Qed.

Lemma registerTool_rejected (t : tool) (this : ToolRegistry) :
  accepts t = false ->
  registerTool t this =
    (Throw (mkError "Tool must have a name and handler"), this).
Proof.
  unfold accepts, registerTool.
  destruct (tool_name t) as [n|]; [| reflexivity].
  destruct (tool_handler t) as [h|];
    [| now cbn [is_function negb]; rewrite orb_true_r].
  intros H. cbn [opt_string truthy is_function]. now rewrite H.
Qed.

Lemma description_default (d : option string) :
  js_or (opt_string d) (VStr "") =
  VStr (match d with Some s => s | None => "" end).
Proof.
  destruct d as [s|]; [| reflexivity].
  unfold js_or; simpl. destruct (s =? "")%string eqn:E; simpl; [| reflexivity].
  apply String.eqb_eq in E. now subst.
Qed.

Lemma inputSchema_default (o : option (list (string * value))) (dflt : value) :
  js_or (opt_object o) dflt =
  match o with Some ps => VObj ps | None => dflt end.
Proof. now destruct o. Qed.


(** ** Sequences of registrations *)

Lemma registrations_snoc (ts : list tool) (t : tool) (r : ToolRegistry) :
  registrations (ts ++ [t]) r = snd (registerTool t (registrations ts r)).
Proof. unfold registrations. now rewrite fold_left_app. Qed.

Lemma last_registered_snoc (n : string) (ts : list tool) (t : tool) :
  last_registered n (ts ++ [t]) =
  if accepts t && (match tool_name t with
                   | Some k => (k =? n)%string
                   | None => false
                   end)
  then Some t else last_registered n ts.
Proof. unfold last_registered. now rewrite fold_left_app. Qed.

Lemma registerTool_well_keyed (t : tool) (r : ToolRegistry) :
  well_keyed (tools r) -> well_keyed (tools (snd (registerTool t r))).
Proof.
  intros [Hnd Hnames]. destruct (accepts t) eqn:E.
  - destruct (registerTool_accepted t r E) as (n & e & _ & _ & Hn & ->).
    simpl. split; [now apply NoDup_Map_set | now apply Forall_Map_set].
  - rewrite (registerTool_rejected t r E). now split.
Qed.

Lemma registrations_well_keyed (ts : list tool) (r : ToolRegistry) :
  well_keyed (tools r) -> well_keyed (tools (registrations ts r)).
Proof.
  induction ts as [|t ts IH] using rev_ind; [trivial |].
  intros H. rewrite registrations_snoc.
  now apply registerTool_well_keyed, IH.
Qed.

Lemma new_well_keyed : well_keyed (tools new_ToolRegistry).
Proof. split; constructor. Qed.

(** The object under [n] comes from the last descriptor taken under [n]. *)
Lemma Map_get_registrations (n : string) (ts : list tool) (r : ToolRegistry) :
  Map_get n (tools (registrations ts r)) =
  match last_registered n ts with
  | Some t => entry_of t
  | None => Map_get n (tools r)
  end.
Proof.
  induction ts as [|t ts IH] using rev_ind; [reflexivity |].
  rewrite registrations_snoc, last_registered_snoc.
  destruct (accepts t) eqn:E; simpl.
  - destruct (registerTool_accepted t (registrations ts r) E)
      as (k & e & Hk & He & _ & ->).
    rewrite Hk. simpl. destruct (k =? n)%string eqn:Ekn.
    + apply String.eqb_eq in Ekn. subst k.
      now rewrite Map_get_set_same.
    + apply String.eqb_neq in Ekn.
      rewrite Map_get_set_other by congruence. exact IH.
  - now rewrite (registerTool_rejected _ _ E).
Qed.

Lemma last_registered_Some (n : string) (ts : list tool) (t : tool) :
  last_registered n ts = Some t ->
  In t ts /\ accepts t = true /\ tool_name t = Some n.
Proof.
  induction ts as [|u ts IH] using rev_ind; [discriminate |].
  rewrite last_registered_snoc.
  destruct (accepts u) eqn:E; simpl.
  - destruct (tool_name u) as [k|] eqn:Hk.
    + destruct (k =? n)%string eqn:Ekn.
      * apply String.eqb_eq in Ekn. subst k. intros [= <-].
        repeat split; auto. apply in_or_app. right. now left.
      * intros H. destruct (IH H) as (? & ? & ?).
        repeat split; auto. apply in_or_app. now left.
    + intros H. destruct (IH H) as (? & ? & ?).
      repeat split; auto. apply in_or_app. now left.
  - intros H. destruct (IH H) as (? & ? & ?).
    repeat split; auto. apply in_or_app. now left.
Qed.


Lemma last_registered_In (n : string) (ts : list tool) (t : tool) :
  In t ts -> accepts t = true -> tool_name t = Some n ->
  exists u, last_registered n ts = Some u.
Proof.
  induction ts as [|u ts IH] using rev_ind; [contradiction |].
  intros Hin Hacc Hname. rewrite last_registered_snoc.
  destruct (accepts u && _) eqn:E; [eauto |].
  apply in_app_or in Hin. destruct Hin as [Hin | [-> | []]]; [now apply IH |].
  rewrite Hacc, Hname, String.eqb_refl in E. discriminate.
Qed.

(** ** The loader *)

Lemma logged_nil (w : world) : logged [] w = w.
Proof. destruct w. unfold logged. simpl. now rewrite app_nil_r. Qed.

Lemma logged_app (a b : list string) (w : world) :
  logged (a ++ b) w = logged b (logged a w).
Proof. unfold logged. simpl. now rewrite app_assoc. Qed.

Lemma registrations_app (ts us : list tool) (r : ToolRegistry) :
  registrations (ts ++ us) r = registrations us (registrations ts r).
Proof. unfold registrations. now rewrite fold_left_app. Qed.

Section Loader.
Variable node : Host.
Variable absolutePath : string.

(** One round of the loop ends normally whatever the file holds. *)
Lemma load_file_run (f : string) (r : ToolRegistry) (w : world) :
  load_file node absolutePath f (r, w) =
  (Ok tt, (registrations (exports node absolutePath [f]) r,
           logged (diagnostic node absolutePath f) w)).
Proof.
  unfold load_file, exports, diagnostic, try_catch, bind, lift_outcome.
  simpl. destruct (import_ node (path_join node absolutePath f)) as [m | e].
  - destruct (module_default m) as [d|]; simpl.
    + unfold on_registry, on_world. simpl. destruct (accepts d) eqn:E.
      * destruct (registerTool_accepted d r E) as (n & en & _ & _ & _ & ->).
        reflexivity.
      * rewrite (registerTool_rejected d r E). reflexivity.
    + unfold ret. now rewrite logged_nil.
  - reflexivity.
Qed.

Lemma for_of_load_file (fs : list string) (r : ToolRegistry) (w : world) :
  for_of fs (load_file node absolutePath) (r, w) =
  (Ok tt, (registrations (exports node absolutePath fs) r,
           logged (flat_map (diagnostic node absolutePath) fs) w)).
Proof.
  revert r w. induction fs as [|f fs IH]; intros r w.
  - simpl. unfold ret. now rewrite logged_nil.
  - change (for_of (f :: fs) (load_file node absolutePath))
      with (bind (load_file node absolutePath f)
              (fun _ => for_of fs (load_file node absolutePath))).
    unfold bind. rewrite load_file_run, IH.
    change (f :: fs) with ([f] ++ fs).
    unfold exports at 3. rewrite flat_map_app. fold (exports node absolutePath [f]).
    fold (exports node absolutePath fs).
    rewrite registrations_app. rewrite flat_map_app, logged_app.
    cbn [flat_map]. now rewrite app_nil_r.
Qed.
End Loader.

Lemma loadCustomTools_run (node : Host) (toolsDir : string)
    (listing : list string) (r : ToolRegistry) (w : world) :
  files w (absolute node toolsDir) = Dir listing ->
  loadCustomTools node toolsDir (r, w) =
  (Ok tt,
   (registrations
      (exports node (absolute node toolsDir) (toolFiles listing)) r,
    logged (flat_map (diagnostic node (absolute node toolsDir))
                     (toolFiles listing)) w)).
Proof.
  intros Hdir. unfold loadCustomTools, bind, on_world, existsSync, readdir.
  cbn [fst snd]. rewrite Hdir. cbn [negb fst snd]. rewrite Hdir.
  apply for_of_load_file.
Qed.

Lemma loadCustomTools_no_directory (node : Host) (toolsDir : string)
    (r : ToolRegistry) (w : world) :
  files w (absolute node toolsDir) = Missing ->
  loadCustomTools node toolsDir (r, w) =
  (Ok tt,
   (r, logged ["Custom tools directory not found: " +++
               absolute node toolsDir] w)).
Proof.
  intros Hdir. unfold loadCustomTools, bind, on_world, existsSync.
  cbn [fst snd]. now rewrite Hdir.
Qed.

Lemma loadBuiltInTools_run (node : Host) (r : ToolRegistry) :
  loadBuiltInTools node r = (Ok tt, registrations (builtInTools node) r).
Proof. reflexivity. Qed.


(** ** Dispatch *)

(** What [executeTool] throws is never an [McpError]. *)
Lemma executeTool_throws_plain_Error
    (this : ToolRegistry) (n : string) (args : value) (w w' : world)
    (e : Error) :
  executeTool this n args w = (Throw e, w') -> mcp_code e = None.
Proof.
  unfold executeTool. destruct (Map_get n (tools this)) as [t|].
  - unfold try_catch.
    destruct ((invoked n args;;; handler t (view this) args)%js w)
      as [[v | e0] w0]; [discriminate |].
    unfold throw. now intros [= <- _].
  - unfold throw. now intros [= <- _].
Qed.

(** The server's request handler catches whatever [executeTool] throws,
    logs it and answers with an [McpError] built from its message. *)
Lemma CallTool_catches
    (node : Host) (CONFIG : config) (this : ToolRegistry) (n : string)
    (args : value) (w w1 : world) (e : Error) :
  executeTool this n args
    (after_log node CONFIG ("Executing tool: " +++ n) info w) = (Throw e, w1) ->
  CallTool node CONFIG this n args w =
  (Throw (new_McpError node (ErrorCode_InternalError node)
            ("Tool execution failed: " +++ message e)),
   after_log node CONFIG
     ("Error executing tool " +++ n +++ ": " +++ message e) error w1).
Proof.
  intros Hrun. pose proof (executeTool_throws_plain_Error _ _ _ _ _ _ Hrun) as Hplain.
  unfold CallTool, after_log in *.
  assert (Hlog : forall msg lvl w0,
             exists w0', log node CONFIG msg lvl w0 = (Ok tt, w0')).
  { intros msg lvl w0. unfold log.
    destruct (debug CONFIG || _); [| now eexists].
    unfold bind, Date_now, console_error. now eexists. }
  unfold bind at 1. destruct (Hlog ("Executing tool: " +++ n) info w) as [w0 H0].
  rewrite H0 in *. cbn [snd] in Hrun.
  unfold try_catch, bind at 1. rewrite Hrun.
  unfold bind.
  destruct (Hlog ("Error executing tool " +++ n +++ ": " +++ message e)
              error w1) as [w2 H2].
  rewrite H2, Hplain. reflexivity.
Qed.



(** C2: for a name under which nothing is registered, [executeTool]
    throws the error ["Tool 'n' not found"] to its caller and leaves the
    machine as it was; in particular no handler has been called.  The
    caller, the server's request handler, catches the error and answers
    with an [McpError], again without any handler call. *)
Theorem executeTool_not_found
    (this : ToolRegistry) (n : string) (args : value) (w : world) :
  hasTool this n = false ->
  executeTool this n args w =
    (Throw (mkError ("Tool '" +++ n +++ "' not found")), w) /\
  invocations (snd (executeTool this n args w)) = invocations w /\
  (forall node CONFIG,
     exists w',
       CallTool node CONFIG this n args w =
       (Throw (new_McpError node (ErrorCode_InternalError node)
                 ("Tool execution failed: Tool '" +++ n +++ "' not found")),
        w') /\
       invocations w' = invocations w).
Proof.
  intros H.
  assert (Hexec : forall w0, executeTool this n args w0 =
                    (Throw (mkError ("Tool '" +++ n +++ "' not found")), w0)).
  { intros w0. unfold hasTool, Map_has in H. unfold executeTool.
    now destruct (Map_get n (tools this)). }
  split; [apply Hexec | split; [now rewrite Hexec |]].
  intros node CONFIG. eexists. split.
  - rewrite (CallTool_catches node CONFIG this n args w _ _ (Hexec _)).
    reflexivity.
  - unfold after_log, log.
    destruct (debug CONFIG); reflexivity.
Qed.

Lemma executeTool_not_found_witness :
  executeTool (fst (Sample.started (Sample.machine Sample.no_files)))
    "nope" (VObj []) (Sample.machine Sample.no_files) =
  (Throw (mkError "Tool 'nope' not found"), Sample.machine Sample.no_files).
Proof.
  apply (executeTool_not_found
           (fst (Sample.started (Sample.machine Sample.no_files)))
           "nope" (VObj []) (Sample.machine Sample.no_files)).
  reflexivity.
Defined.

(** ** Registration *)

(** C3: [registerTool] throws exactly when the descriptor has no name, an
    empty name or no handler; the error is "Tool must have a name and
    handler" and the registry is untouched.  Otherwise the object made
    from the descriptor is stored under its name, in place if the name was
    present and last if not, and lookups of other names are unchanged. *)
Theorem registerTool_invalid_descriptor_iff (t : tool) (this : ToolRegistry) :
  ((exists e this', registerTool t this = (Throw e, this')) <->
   (tool_name t = None \/ tool_name t = Some "" \/ tool_handler t = None)) /\
  (forall e this',
     registerTool t this = (Throw e, this') ->
     e = mkError "Tool must have a name and handler" /\ this' = this) /\
  (forall u this',
     registerTool t this = (Ok u, this') ->
     exists n e,
       tool_name t = Some n /\ entry_of t = Some e /\
       Map_get n (tools this') = Some e /\
       (forall k, k <> n ->
                  Map_get k (tools this') = Map_get k (tools this)) /\
       Map_keys (tools this') =
         (if hasTool this n then Map_keys (tools this)
          else Map_keys (tools this) ++ [n]) /\
       this_cfg this' = this_cfg this).
Proof.
  destruct (accepts t) eqn:E.
  - destruct (registerTool_accepted t this E) as (n & e & Hn & He & _ & Hrun).
    split; [| split].
    + split.
      * intros (e' & this' & H). rewrite Hrun in H. discriminate.
      * intros H. apply accepts_iff in H. congruence.
    + intros e' this' H. rewrite Hrun in H. discriminate.
    + intros u this' H. rewrite Hrun in H. injection H as _ <-.
      exists n, e. simpl. repeat split; auto.
      * apply Map_get_set_same.
      * intros k Hk. now apply Map_get_set_other.
      * apply Map_keys_set.
  - rewrite (registerTool_rejected t this E). split; [| split].
    + split; [intros _; now apply accepts_iff | eauto].
    + intros e' this' [= <- <-]. now split.
    + discriminate.
Qed.

Lemma registerTool_invalid_descriptor_iff_witness :
  exists e,
    entry_of Sample.bare = Some e /\
    Map_get "x" (tools (snd (registerTool Sample.bare new_ToolRegistry))) =
      Some e.
Proof.
  destruct (registerTool_invalid_descriptor_iff Sample.bare new_ToolRegistry)
    as (_ & _ & H).
  destruct (H tt (snd (registerTool Sample.bare new_ToolRegistry)) eq_refl)
    as (n & e & Hn & He & Hget & _).
  injection Hn as <-. now exists e.
Defined.

(** C4, as stated, fails: a descriptor without description and input
    schema is looked up with the description [''] and the schema
    [{type: 'object', properties: {}}], which the descriptor does not
    have. *)
Lemma registered_lookup_fills_defaults :
  exists this' e,
    registerTool Sample.bare new_ToolRegistry = (Ok tt, this') /\
    Map_get "x" (tools this') = Some e /\
    description e = VStr "" /\
    opt_string (tool_description Sample.bare) = VUndefined /\
    ~ same_descriptor Sample.bare e.
Proof.
  eexists. eexists. split; [reflexivity |]. split; [reflexivity |].
  split; [reflexivity |]. split; [reflexivity |].
  intros (_ & H & _). discriminate H.
Qed.

(** C4, amended: for a descriptor with a non-empty name and a handler,
    registering it and looking its name up gives an object with the same
    name and handler, with the descriptor's description or [''] when it
    has none, and with the descriptor's input schema or
    [{type: 'object', properties: {}}] when it has none; a descriptor
    that has both is returned as it is. *)
Theorem lookup_after_register
    (t : tool) (this : ToolRegistry) (n : string) (h : handler_fn) :
  tool_name t = Some n -> n <> "" -> tool_handler t = Some h ->
  exists this' e,
    registerTool t this = (Ok tt, this') /\
    Map_get n (tools this') = Some e /\
    name e = n /\
    handler e = h /\
    description e =
      VStr (match tool_description t with Some s => s | None => "" end) /\
    inputSchema e =
      match tool_inputSchema t with
      | Some ps => VObj ps
      | None => VObj [("type", VStr "object"); ("properties", VObj [])]
      end /\
    (tool_description t <> None -> tool_inputSchema t <> None ->
     same_descriptor t e).
Proof.
  intros Hn Hne Hh.
  assert (E : accepts t = true).
  { unfold accepts. rewrite Hn, Hh. apply String.eqb_neq in Hne.
    now rewrite Hne. }
  destruct (registerTool_accepted t this E) as (k & e & Hk & He & _ & Hrun).
  rewrite Hn in Hk. injection Hk as <-.
  exists {| tools := Map_set n e (tools this); this_cfg := this_cfg this |}, e.
  unfold entry_of in He. rewrite Hn, Hh in He. injection He as <-.
  split; [exact Hrun |].
  split; [apply Map_get_set_same |].
  cbn [name handler description inputSchema tools].
  split; [reflexivity |]. split; [reflexivity |].
  split; [apply description_default |].
  split; [apply inputSchema_default |].
  intros Hd Hs. unfold same_descriptor.
  cbn [name handler description inputSchema].
  rewrite description_default, inputSchema_default.
  destruct (tool_description t); [| congruence].
  destruct (tool_inputSchema t); [| congruence].
  auto.
Qed.

Lemma lookup_after_register_witness :
  exists this' e,
    registerTool (Sample.described "x" "from a.js") new_ToolRegistry =
      (Ok tt, this') /\
    Map_get "x" (tools this') = Some e /\
    description e = VStr "from a.js".
Proof.
  destruct (lookup_after_register (Sample.described "x" "from a.js")
              new_ToolRegistry "x" Sample.echo eq_refl
              ltac:(discriminate) eq_refl)
    as (this' & e & Hrun & Hget & _ & _ & Hd & _).
  exists this', e. repeat split; assumption.
Defined.

(** ** Enumeration and duplicate names *)




Lemma loadCustomTools_registers (node : Host) (d : string)
    (r : ToolRegistry) (w : world) :
  exists ts,
    fst (snd (loadCustomTools node d (r, w))) = registrations ts r.
Proof.
  destruct (files w (absolute node d)) as [| v | why | listing] eqn:E.
  - rewrite (loadCustomTools_no_directory node d r w E). now exists [].
  - exists []. unfold loadCustomTools, bind, on_world, existsSync, readdir.
    cbn [fst snd]. rewrite E. cbn [negb fst snd]. now rewrite E.
  - exists []. unfold loadCustomTools, bind, on_world, existsSync, readdir.
    cbn [fst snd]. rewrite E. cbn [negb fst snd]. now rewrite E.
  - rewrite (loadCustomTools_run node d listing r w E). eexists. reflexivity.
Qed.


(** The description defaults to a string and the schema to an object. *)
Lemma advertised_shapes (n : string) (t : tool) :
  (exists d, info_description (advertised n t) = VStr d) /\
  (exists ps, info_inputSchema (advertised n t) = VObj ps).
Proof.
  unfold advertised. cbn [info_description info_inputSchema].
  split; [eauto |]. destruct (tool_inputSchema t); eauto.
Qed.



(** ** Loading custom tools *)




(** ** JSON documents *)

Lemma value_induction (P : value -> Prop) :
  P VUndefined -> P VNull -> (forall b, P (VBool b)) ->
  (forall n, P (VNum n)) -> (forall s, P (VStr s)) ->
  (forall l, Forall P l -> P (VArr l)) ->
  (forall ps, Forall (fun kx => P (snd kx)) ps -> P (VObj ps)) ->
  forall v, P v.
Proof.
  intros Hu Hn Hb Hz Hs Harr Hobj. fix IH 1.
  intros [| | b | n | s | l | ps];
    [exact Hu | exact Hn | apply Hb | apply Hz | apply Hs | |].
  - apply Harr. induction l as [|x t IHl]; constructor; [apply IH | exact IHl].
  - apply Hobj.
    induction ps as [|[k x] t IHp]; constructor; [apply IH | exact IHp].
Qed.


(** Writing a JSON document and reading it back gives the document. *)
Lemma jsonify_id (v : value) : is_json v = true -> jsonify v = v.
Proof.
  induction v as [| | b | n | s | l IHl | ps IHp] using value_induction;
    try reflexivity; intros H; simpl in H |- *; f_equal.
  - induction IHl as [|x t Hx _ IHt]; [reflexivity |].
    simpl in H. apply andb_prop in H. destruct H as [H1 H2].
    simpl. rewrite (Hx H1), (IHt H2). now destruct x.
  - induction IHp as [|[k x] t Hx _ IHt]; [reflexivity |].
    simpl in H. apply andb_prop in H. destruct H as [H1 H2].
    simpl in Hx |- *. rewrite (Hx H1), (IHt H2). now destruct x.
Qed.


Lemma jsonify_record (v : value) :
  is_record v = true -> is_record (jsonify v) = true.
Proof. now destruct v. Qed.

Lemma is_json_assoc (k : string) (ps : list (string * value)) (v : value) :
  is_json (VObj ps) = true -> assoc k ps = Some v -> is_json v = true.
Proof.
  simpl. induction ps as [|[k0 x] t IH]; simpl; [discriminate |].
  intros H. apply andb_prop in H. destruct H as [H1 H2].
  destruct (k =? k0)%string; [now intros [= <-] | now apply IH].
Qed.

Lemma is_json_assoc_set (k : string) (ps : list (string * value)) (v : value) :
  is_json (VObj ps) = true -> is_json v = true ->
  is_json (VObj (assoc_set k v ps)) = true.
Proof.
  simpl. intros H Hv. induction ps as [|[k0 x] t IH]; simpl.
  - now rewrite Hv.
  - simpl in H. apply andb_prop in H. destruct H as [H1 H2].
    destruct (k =? k0)%string; simpl.
    + now rewrite Hv, H2.
    + now rewrite H1, IH.
Qed.

Lemma forallb_filter_sub {A} (p f : A -> bool) (l : list A) :
  forallb p l = true -> forallb p (filter f l) = true.
Proof.
  rewrite !forallb_forall. intros H x Hx. apply filter_In in Hx. now apply H.
Qed.

(** ** Decimal ids *)

Lemma Z_toString_inj (a b : Z) : Z_toString a = Z_toString b -> a = b.
Proof.
  unfold Z_toString. intros H.
  assert (Hnz : forall z, Z.to_int z <> Decimal.Pos Decimal.Nil /\
                          Z.to_int z <> Decimal.Neg Decimal.Nil).
  { intros z. split; intros Hz;
      pose proof (f_equal Z.of_int Hz) as Hz';
      rewrite DecimalZ.of_to in Hz'; simpl in Hz'; subst z;
      discriminate Hz. }
  apply DecimalZ.to_int_inj.
  assert (Some (Z.to_int a) = Some (Z.to_int b)) as [= ->]; [| reflexivity].
  rewrite <- (NilZero.isi (Z.to_int a)), <- (NilZero.isi (Z.to_int b));
    try apply Hnz.
  now rewrite H.
Qed.

(** ** The built-in handlers *)

Lemma filterM_pure {S A} (cb : A -> M S bool) (f : A -> bool)
    (l : list A) (s : S) :
  (forall x, In x l -> cb x s = (Ok (f x), s)) ->
  filterM cb l s = (Ok (filter f l), s).
Proof.
  induction l as [|x t IH]; intros H; [reflexivity |].
  simpl. unfold bind. rewrite (H x (or_introl eq_refl)).
  rewrite IH by (intros y Hy; apply H; now right).
  unfold ret. now destruct (f x).
Qed.

Lemma id_of_record (item : value) :
  is_record item = true -> get_prop item "id" = Ok (id_of item).
Proof. destruct item; try discriminate. reflexivity. Qed.


Lemma filter_all_iff {A} (f : A -> bool) (l : list A) :
  List.length (filter f l) = List.length l <-> forallb f l = true.
Proof.
  split; [apply filter_length_forallb |].
  intros H. now rewrite (forallb_filter_id f l H).
Qed.

Lemma written_collection (p : string) (w w' : world)
    (props : list (string * value)) (l' : list value) :
  (forall es, files w p <> Dir es) ->
  is_json (VObj props) = true ->
  forallb is_json l' = true ->
  forallb is_record l' = true ->
  writeJson p (VObj (assoc_set "items" (VArr l') props)) w = (Ok tt, w') ->
  stored_collection p w' l' /\
  (forall q, q <> p -> files w' q = files w q) /\
  clock w' = clock w /\ ticks w' = ticks w /\ console w' = console w /\
  invocations w' = invocations w.
Proof.
  intros Hfile Hjson Hl' Hrec.
  assert (Hj : is_json (VObj (assoc_set "items" (VArr l') props)) = true)
    by now apply is_json_assoc_set.
  unfold writeJson. rewrite (jsonify_id _ Hj). intros Hw.
  assert (Hw' : w' =
                {| files := fun q =>
                     if (q =? p)%string
                     then Json (VObj (assoc_set "items" (VArr l') props))
                     else files w q;
                   clock := clock w; ticks := ticks w; console := console w;
                   invocations := invocations w |}).
  { destruct (files w p) eqn:Ef; try (now injection Hw as <-).
    now destruct (Hfile entries). }
  subst w'. cbn [files clock ticks console invocations].
  repeat split; auto.
  - exists (assoc_set "items" (VArr l') props). cbn [files].
    rewrite String.eqb_refl.
    repeat split; auto. apply (Map_get_set_same "items" (VArr l') props).
  - intros q Hq. apply String.eqb_neq in Hq. now rewrite Hq.
Qed.




Lemma remove_item_run (node : Host) (this : this_view) (c : config)
    (args X : value) (w : world) (props : list (string * value))
    (l : list value) :
  this_config this = Some c ->
  get_prop args "id" = Ok X ->
  files w (path_join node (dataDir c) "items.json") = Json (VObj props) ->
  assoc "items" props = Some (VArr l) ->
  forallb is_record l = true ->
  remove_item_handler node this args w =
  if (Z.of_nat (List.length (filter (not_matching X) l)) =?
      Z.of_nat (List.length l))%Z
  then (Throw (mkError ("Item with ID '" +++ ToString node X +++
                        "' not found")), w)
  else
    match writeJson (path_join node (dataDir c) "items.json")
            (VObj (assoc_set "items" (VArr (filter (not_matching X) l)) props))
            w with
    | (Ok _, w') =>
        (Ok (VObj [("success", VBool true);
                   ("message", VStr ("Item '" +++ ToString node X +++
                                     "' removed successfully"))]), w')
    | (Throw e, w') => (Throw e, w')
    end.
Proof.
  intros Hcfg Hid Hfile Hitems Hrec.
  unfold remove_item_handler, dataFile. rewrite Hcfg.
  cbn [bind ret]. unfold existsSync at 1. unfold bind at 1. rewrite Hfile. cbn [negb].
  unfold bind at 1. unfold readJson at 1. rewrite Hfile.
  unfold bind at 1. unfold lift_outcome at 1. cbn [get_prop]. rewrite Hitems.
  unfold bind at 1. unfold lift_outcome at 1.
  change (get_prop (VArr l) "length") with (@Ok value (VNum (Z.of_nat (List.length l)))).
  cbv iota beta.
  unfold bind at 1. unfold array_filter at 1. unfold bind at 1.
  rewrite (filterM_pure _ (not_matching X)).
  2:{ intros x Hx. rewrite forallb_forall in Hrec.
      unfold bind, lift_outcome. rewrite (id_of_record x (Hrec x Hx)), Hid.
      reflexivity. }
  unfold ret at 1. unfold bind at 1. unfold lift_outcome at 1. cbn [set_prop].
  unfold bind at 1. unfold lift_outcome at 1.
  change (get_prop (VArr (filter (not_matching X) l)) "length")
    with (@Ok value (VNum (Z.of_nat (List.length (filter (not_matching X) l))))).
  cbv iota beta. cbn [strict_eq].
  destruct (_ =? _)%Z.
  - unfold bind, lift_outcome. rewrite Hid. reflexivity.
  - unfold bind at 1.
    destruct (writeJson _ _ w) as [[u | e] w']; [| reflexivity].
    unfold bind, lift_outcome. rewrite Hid. reflexivity.
Qed.


(** C8: for a stored collection [l] and an id [X], [remove_item] throws
    "Item with ID 'X' not found" and leaves the machine, and with it the
    stored document, as it was when no record of [l] has the id [X]
    (and throws "No items found" when there is no document); when some
    record has the id [X] it succeeds and the stored collection becomes
    [l] without the records whose id is [X], the others staying in
    order. *)
Theorem remove_item_not_found_or_deleted
    (node : Host) (this : this_view) (c : config) (args X : value)
    (w : world) :
  this_config this = Some c ->
  get_prop args "id" = Ok X ->
  let p := path_join node (dataDir c) "items.json" in
  (files w p = Missing ->
   remove_item_handler node this args w =
     (Throw (mkError "No items found"), w)) /\
  (forall l,
     stored_collection p w l ->
     (Forall (fun item => strict_eq (id_of item) X = false) l ->
      remove_item_handler node this args w =
        (Throw (mkError ("Item with ID '" +++ ToString node X +++
                         "' not found")), w)) /\
     (Exists (fun item => strict_eq (id_of item) X = true) l ->
      exists w',
        remove_item_handler node this args w =
          (Ok (VObj [("success", VBool true);
                     ("message", VStr ("Item '" +++ ToString node X +++
                                       "' removed successfully"))]), w') /\
        stored_collection p w' (filter (not_matching X) l) /\
        (forall q, q <> p -> files w' q = files w q))).
Proof.
  intros Hcfg Hid p. split.
  - intros Hfile. unfold remove_item_handler, dataFile. rewrite Hcfg.
    cbn [bind ret]. unfold existsSync at 1. unfold bind at 1.
    fold p. now rewrite Hfile.
  - intros l (props & Hfile & Hitems & Hjson & Hrec).
    pose proof (remove_item_run node this c args X w props l
                  Hcfg Hid Hfile Hitems Hrec) as Hrun.
    fold p in Hrun. split.
    + intros Hno. rewrite Hrun.
      assert (Hall : forallb (not_matching X) l = true).
      { apply forallb_forall. intros x Hx. rewrite Forall_forall in Hno.
        unfold not_matching. now rewrite (Hno x Hx). }
      apply filter_all_iff in Hall. rewrite Hall.
      now rewrite Z.eqb_refl.
    + intros Hsome. rewrite Hrun.
      destruct (_ =? _)%Z eqn:E.
      * exfalso. apply Z.eqb_eq, Nat2Z.inj, filter_all_iff in E.
        rewrite forallb_forall in E. apply Exists_exists in Hsome.
        destruct Hsome as (x & Hx & Hm). specialize (E x Hx).
        unfold not_matching in E. rewrite Hm in E. discriminate.
      * assert (Hkj : forallb is_json (filter (not_matching X) l) = true).
        { apply forallb_filter_sub.
          apply (is_json_assoc "items" props (VArr l) Hjson Hitems). }
        assert (Hkr : forallb is_record (filter (not_matching X) l) = true)
          by now apply forallb_filter_sub.
        destruct (writeJson p _ w) as [[[] | e] w'] eqn:Ew.
        -- exists w'. split; [reflexivity |].
           assert (Hnd : forall es, files w p <> Dir es)
             by (intros es; rewrite Hfile; discriminate).
           destruct (written_collection p w w' props _ Hnd Hjson Hkj Hkr Ew)
             as (Hs & Hq & _). now split.
        -- unfold writeJson in Ew. rewrite Hfile in Ew. discriminate.
Qed.


Lemma remove_item_not_found_or_deleted_witness :
  remove_item_handler Sample.node Sample.this (VObj [("id", VStr "3")])
    (Sample.machine (Sample.with_items Sample.two_items)) =
  (Throw (mkError "Item with ID '3' not found"),
   Sample.machine (Sample.with_items Sample.two_items)).
Proof.
  destruct (remove_item_not_found_or_deleted Sample.node Sample.this
              (Sample.cfg None) (VObj [("id", VStr "3")]) (VStr "3")
              (Sample.machine (Sample.with_items Sample.two_items))
              eq_refl eq_refl) as [_ H].
  destruct (H Sample.two_items) as [Hnone _].
  - exists [("items", VArr Sample.two_items)]. repeat split.
  - apply Hnone. repeat constructor.
Defined.

(** With [args.filter] and [args.limit] both falsy, [list_items] returns
    every stored item and changes nothing. *)
Lemma list_items_falsy_args
    (node : Host) (this : this_view) (c : config) (args f k : value)
    (w : world) :
  this_config this = Some c ->
  get_prop args "filter" = Ok f -> truthy f = false ->
  get_prop args "limit" = Ok k -> truthy k = false ->
  let p := path_join node (dataDir c) "items.json" in
  (files w p = Missing ->
   list_items_handler node this args w =
     (Ok (VObj [("items", VArr []); ("count", VNum 0)]), w)) /\
  (forall l,
     stored_collection p w l ->
     list_items_handler node this args w =
       (Ok (VObj [("items", VArr l);
                  ("count", VNum (Z.of_nat (List.length l)))]), w)).
Proof.
  intros Hcfg Hf Hft Hk Hkt p. split.
  - intros Hfile. unfold list_items_handler, dataFile. rewrite Hcfg.
    cbn [bind ret]. unfold existsSync at 1. unfold bind at 1.
    fold p. now rewrite Hfile.
  - intros l (props & Hfile & Hitems & Hjson & Hrec).
    unfold list_items_handler, dataFile. rewrite Hcfg.
    cbn [bind ret]. unfold existsSync at 1. unfold bind at 1.
    fold p. rewrite Hfile. cbn [negb].
    unfold bind at 1. unfold readJson at 1. rewrite Hfile.
    unfold bind at 1. unfold lift_outcome at 1. cbn [get_prop].
    rewrite Hitems. cbn [js_or truthy].
    unfold bind at 1. unfold lift_outcome at 1. rewrite Hf, Hft.
    unfold bind at 1. unfold ret at 1.
    unfold bind at 1. unfold lift_outcome at 1. rewrite Hk, Hkt.
    unfold bind at 1. unfold ret at 1.
    reflexivity.
Qed.


Lemma effective_eq (a b : value) :
  effective a = effective b ->
  truthy a = truthy b /\ (truthy a = true -> a = b).
Proof.
  unfold effective. destruct (truthy a) eqn:Ea, (truthy b) eqn:Eb; intros H.
  - now split.
  - subst a. discriminate.
  - subst b. discriminate.
  - split; [reflexivity | discriminate].
Qed.

Lemma bind_congr {S A B} (m : M S A) (k1 k2 : A -> M S B) (s : S) :
  (forall a s', k1 a s' = k2 a s') -> bind m k1 s = bind m k2 s.
Proof. intros H. unfold bind. destruct (m s) as [[a | e] s']; auto. Qed.

Lemma bind_Ok {S A B} (a : A) (k : A -> M S B) (s : S) :
  bind (lift_outcome (Ok a)) k s = k a s.
Proof. reflexivity. Qed.

Lemma list_items_reads_effective_args
    (node : Host) (this : this_view) (args1 args2 f1 k1 f2 k2 : value)
    (w : world) :
  get_prop args1 "filter" = Ok f1 -> get_prop args1 "limit" = Ok k1 ->
  get_prop args2 "filter" = Ok f2 -> get_prop args2 "limit" = Ok k2 ->
  effective f1 = effective f2 -> effective k1 = effective k2 ->
  list_items_handler node this args1 w = list_items_handler node this args2 w.
Proof.
  intros Hf1 Hk1 Hf2 Hk2 Ef Ek.
  apply effective_eq in Ef, Ek. destruct Ef as [Eft Ef], Ek as [Ekt Ek].
  unfold list_items_handler.
  apply bind_congr. intros p s1. apply bind_congr. intros present s2.
  destruct present; cbn [negb]; [| reflexivity].
  apply bind_congr. intros data s3. apply bind_congr. intros data_items s4.
  cbv zeta. rewrite Hf1, Hf2, !bind_Ok.
  assert (Hlimit : forall (items : value) (s5 : world),
    (limit <- lift_outcome (get_prop args1 "limit");;
     items0 <- (if truthy limit then slice0 node items "items" limit
                else ret items);;
     count <- lift_outcome (get_prop items0 "length");;
     ret (VObj [("items", items0); ("count", count)]))%js s5 =
    (limit <- lift_outcome (get_prop args2 "limit");;
     items0 <- (if truthy limit then slice0 node items "items" limit
                else ret items);;
     count <- lift_outcome (get_prop items0 "length");;
     ret (VObj [("items", items0); ("count", count)]))%js s5).
  { intros items s5. rewrite Hk1, Hk2, !bind_Ok. rewrite <- Ekt.
    destruct (truthy k1); [now rewrite <- (Ek eq_refl) | reflexivity]. }
  rewrite <- Eft. destruct (truthy f1).
  - rewrite <- (Ef eq_refl). apply bind_congr. exact Hlimit.
  - apply bind_congr. exact Hlimit.
Qed.

(** C9: when [args.filter] and [args.limit] are both falsy -- [limit]
    equal to [0] and [filter] equal to [''] included -- [list_items]
    returns every stored item, with their count, and changes nothing; and
    two calls whose [filter]s and [limit]s agree wherever they are truthy
    give the same result, so that a falsy [limit] or [filter] acts as a
    missing one whatever the other argument is. *)
Theorem list_items_only_truthy_filter_and_limit
    (node : Host) (this : this_view) (w : world) :
  (forall c args f k,
     this_config this = Some c ->
     get_prop args "filter" = Ok f -> truthy f = false ->
     get_prop args "limit" = Ok k -> truthy k = false ->
     let p := path_join node (dataDir c) "items.json" in
     (files w p = Missing ->
      list_items_handler node this args w =
        (Ok (VObj [("items", VArr []); ("count", VNum 0)]), w)) /\
     (forall l,
        stored_collection p w l ->
        list_items_handler node this args w =
          (Ok (VObj [("items", VArr l);
                     ("count", VNum (Z.of_nat (List.length l)))]), w))) /\
  (forall args1 args2 f1 k1 f2 k2,
     get_prop args1 "filter" = Ok f1 -> get_prop args1 "limit" = Ok k1 ->
     get_prop args2 "filter" = Ok f2 -> get_prop args2 "limit" = Ok k2 ->
     effective f1 = effective f2 -> effective k1 = effective k2 ->
     list_items_handler node this args1 w =
     list_items_handler node this args2 w).
Proof.
  split.
  - intros c args f k Hc Hf Hft Hk Hkt.
    exact (list_items_falsy_args node this c args f k w Hc Hf Hft Hk Hkt).
  - intros args1 args2 f1 k1 f2 k2.
    apply list_items_reads_effective_args.
Qed.

Lemma list_items_only_truthy_filter_and_limit_witness :
  list_items_handler Sample.node Sample.this
    (VObj [("limit", VNum 0); ("filter", VStr "")])
    (Sample.machine (Sample.with_items Sample.two_items)) =
  (Ok (VObj [("items", VArr Sample.two_items); ("count", VNum 2)]),
   Sample.machine (Sample.with_items Sample.two_items)) /\
  list_items_handler Sample.node Sample.this
    (VObj [("limit", VNum 0); ("filter", VStr "cup")])
    (Sample.machine (Sample.with_items Sample.two_items)) =
  list_items_handler Sample.node Sample.this
    (VObj [("filter", VStr "cup")])
    (Sample.machine (Sample.with_items Sample.two_items)).
Proof.
  destruct (list_items_only_truthy_filter_and_limit Sample.node Sample.this
              (Sample.machine (Sample.with_items Sample.two_items)))
    as [Hfalsy Hsame].
  split.
  - destruct (Hfalsy (Sample.cfg None)
                (VObj [("limit", VNum 0); ("filter", VStr "")])
                (VStr "") (VNum 0) eq_refl eq_refl eq_refl eq_refl eq_refl)
      as [_ H].
    apply (H Sample.two_items).
    exists [("items", VArr Sample.two_items)]. repeat split.
  - apply (Hsame (VObj [("limit", VNum 0); ("filter", VStr "cup")])
             (VObj [("filter", VStr "cup")])
             (VStr "cup") (VNum 0) (VStr "cup") VUndefined);
      reflexivity.
Defined.


(** The ids of two new items differ exactly when the clock readings they
    were made from differ. *)
Lemma new_item_same_id_iff (node : Host) (w1 w2 : world)
    (an1 ad1 am1 an2 ad2 am2 : value) :
  id_of (new_item node w1 an1 ad1 am1) = id_of (new_item node w2 an2 ad2 am2)
  <-> clock w1 (ticks w1) = clock w2 (ticks w2).
Proof.
  unfold id_of, new_item. cbn [get_prop assoc String.eqb Ascii.eqb Bool.eqb].
  split.
  - intros [= H]. now apply Z_toString_inj.
  - now intros ->.
Qed.

(** C7: the id is the decimal millisecond reading of the clock, so it is
    not unique: two successive [add_item] calls made while the clock shows
    the same millisecond both succeed, each appending one record, and the
    two records carry the same id. *)
Theorem add_item_same_millisecond_same_id :
  let r := fst (Sample.started (Sample.machine Sample.no_files)) in
  let first :=
    executeTool r "add_item"
      (VObj [("name", VStr "A"); ("description", VStr "d")])
      (Sample.machine Sample.no_files) in
  let second :=
    executeTool r "add_item"
      (VObj [("name", VStr "B"); ("description", VStr "e")])
      (snd first) in
  exists i1 i2,
    fst first =
      Ok (VObj [("success", VBool true); ("item", i1);
                ("message", VStr "Item 'A' added successfully")]) /\
    fst second =
      Ok (VObj [("success", VBool true); ("item", i2);
                ("message", VStr "Item 'B' added successfully")]) /\
    files (snd second) "/data/items.json" =
      Json (VObj [("items", VArr [i1; i2])]) /\
    i1 <> i2 /\
    id_of i1 = VStr "1700000000000" /\
    id_of i2 = VStr "1700000000000".
Proof.
  exists (VObj [("id", VStr "1700000000000"); ("name", VStr "A");
                ("description", VStr "d"); ("metadata", VObj []);
                ("createdAt", VStr "T+1700000000000")]),
         (VObj [("id", VStr "1700000000000"); ("name", VStr "B");
                ("description", VStr "e"); ("metadata", VObj []);
                ("createdAt", VStr "T+1700000000000")]).
  repeat split. discriminate.
Qed.

(** * Further properties *)

(** ** The registry *)

Lemma listed_names_keys (r : ToolRegistry) :
  well_keyed (tools r) -> listed_names r = Map_keys (tools r).
Proof.
  intros [_ Hnames]. unfold listed_names, getTools, Map_values, Map_keys.
  rewrite !map_map. apply map_ext_in. intros ke Hin.
  rewrite Forall_forall in Hnames. exact (Hnames ke Hin).
Qed.

(** X1: in a registry made by [registerTool] calls, [hasTool] holds of
    exactly the names [getTools] lists, no name is listed twice, and the
    number of listed tools is [this.tools.size]. *)
Theorem hasTool_iff_listed (ts : list tool) (c : option config) (n : string) :
  let r := registrations ts {| tools := []; this_cfg := c |} in
  (hasTool r n = true <-> In n (listed_names r)) /\
  NoDup (listed_names r) /\
  List.length (getTools r) = this_tools_size (view r).
Proof.
  intros r.
  assert (Hwk : well_keyed (tools r))
    by (apply registrations_well_keyed; split; constructor).
  rewrite (listed_names_keys r Hwk). split; [| split].
  - unfold hasTool, Map_has.
    destruct (Map_get n (tools r)) as [e|] eqn:E.
    + split; [intros _ | reflexivity].
      destruct (in_dec string_dec n (Map_keys (tools r))) as [Hin | Hn];
        [assumption |].
      apply Map_get_None_keys in Hn. congruence.
    + apply Map_get_None_keys in E. split; [discriminate | contradiction].
  - exact (proj1 Hwk).
  - unfold getTools, Map_values, view, Map_size. cbn [this_tools_size].
    now rewrite !length_map.
Qed.

Lemma hasTool_iff_listed_witness :
  hasTool (registrations [Sample.bare] new_ToolRegistry) "x" = true.
Proof.
  apply (proj1 (hasTool_iff_listed [Sample.bare] None "x")).
  left. reflexivity.
Defined.



(** ** Start-up *)

Lemma registrations_cfg (ts : list tool) (r : ToolRegistry) :
  this_cfg (registrations ts r) = this_cfg r.
Proof.
  induction ts as [|t ts IH] using rev_ind; [reflexivity |].
  rewrite registrations_snoc. destruct (accepts t) eqn:E.
  - destruct (registerTool_accepted t (registrations ts r) E)
      as (n & e & _ & _ & _ & ->). exact IH.
  - now rewrite (registerTool_rejected _ _ E).
Qed.

(** Registering never removes a name. *)
Lemma hasTool_registrations (ts : list tool) (r : ToolRegistry) (n : string) :
  hasTool r n = true -> hasTool (registrations ts r) n = true.
Proof.
  unfold hasTool, Map_has. rewrite Map_get_registrations.
  destruct (last_registered n ts) as [t|] eqn:E; [| trivial].
  intros _. destruct (last_registered_Some n ts t E) as (_ & Hacc & Hn).
  unfold entry_of. unfold accepts in Hacc. rewrite Hn in *.
  now destruct (tool_handler t).
Qed.

Lemma hasTool_registered (ts : list tool) (r : ToolRegistry) (t : tool)
    (n : string) :
  In t ts -> accepts t = true -> tool_name t = Some n ->
  hasTool (registrations ts r) n = true.
Proof.
  intros Hin Hacc Hn. unfold hasTool, Map_has.
  rewrite Map_get_registrations.
  destruct (last_registered_In n ts t Hin Hacc Hn) as [u Hu]. rewrite Hu.
  destruct (last_registered_Some n ts u Hu) as (_ & Hacc' & Hn').
  unfold entry_of. unfold accepts in Hacc'. rewrite Hn' in *.
  now destruct (tool_handler u).
Qed.

Lemma loadCustomTools_not_a_directory (node : Host) (toolsDir : string)
    (r : ToolRegistry) (w : world) :
  (exists v, files w (absolute node toolsDir) = Json v) \/
  (exists why, files w (absolute node toolsDir) = Unparsable why) ->
  loadCustomTools node toolsDir (r, w) =
  (Throw (mkError ("ENOTDIR: not a directory, scandir '" +++
                   absolute node toolsDir +++ "'")), (r, w)).
Proof.
  intros [[v E] | [why E]];
    unfold loadCustomTools, bind, on_world, existsSync, readdir;
    cbn [fst snd]; rewrite E; cbn [negb fst snd]; now rewrite E.
Qed.

Lemma initialize_from_builtins (node : Host) (c : config)
    (r : ToolRegistry) (w : world) :
  exists ts,
    fst (snd (initialize node c (r, w))) =
    registrations (builtInTools node ++ ts)
      {| tools := tools r; this_cfg := Some c |}.
Proof.
  unfold initialize, bind, on_registry, set_config. cbn [fst snd].
  rewrite loadBuiltInTools_run.
  destruct (customToolsDir c) as [d|]; cbn [opt_string truthy].
  - destruct (negb (d =? "")%string).
    + destruct (loadCustomTools_registers node d
                  (registrations (builtInTools node)
                     {| tools := tools r; this_cfg := Some c |}) w)
        as [ts Hts].
      exists ts. rewrite registrations_app, <- Hts. reflexivity.
    + exists []. now rewrite app_nil_r.
  - exists []. now rewrite app_nil_r.
Qed.

(** X3: whatever the configuration, the custom directory and the modules
    in it, and whether or not it ends normally, [initialize] leaves a
    registry that holds the configuration, the five built-in names, and
    every name that was registered before. *)
Theorem initialize_keeps_builtins
    (node : Host) (c : config) (r : ToolRegistry) (w : world) :
  let r' := fst (snd (initialize node c (r, w))) in
  this_cfg r' = Some c /\
  (forall n,
     In n ["list_items"; "add_item"; "remove_item"; "search_items";
           "get_status"] ->
     hasTool r' n = true) /\
  (forall n, hasTool r n = true -> hasTool r' n = true).
Proof.
  intros r'. destruct (initialize_from_builtins node c r w) as [ts Hts].
  unfold r'. rewrite Hts. split; [| split].
  - now rewrite registrations_cfg.
  - intros n Hin.
    assert (Hb : exists t, In t (builtInTools node) /\ accepts t = true /\
                           tool_name t = Some n).
    { cbn [In] in Hin.
      destruct Hin as [<- | [<- | [<- | [<- | [<- | []]]]]].
      - exists (list_items_tool node). cbn. tauto.
      - exists (add_item_tool node). cbn. tauto.
      - exists (remove_item_tool node). cbn. tauto.
      - exists (search_items_tool node). cbn. tauto.
      - exists (get_status_tool node). cbn. tauto. }
    destruct Hb as (t & Hin' & Hacc & Hn).
    apply (hasTool_registered _ _ t n); auto.
    apply in_or_app. now left.
  - intros n Hn. now apply hasTool_registrations.
Qed.

Lemma initialize_keeps_builtins_witness :
  hasTool
    (fst (snd (initialize (Sample.node_with Sample.modules_mixed)
                 (Sample.cfg (Some "/tools"))
                 (snd (registerTool Sample.bare new_ToolRegistry),
                  Sample.machine (Sample.with_dir ["broken.js"; "good.js"])))))
    "x" = true.
Proof.
  apply (proj2 (proj2 (initialize_keeps_builtins
                         (Sample.node_with Sample.modules_mixed)
                         (Sample.cfg (Some "/tools"))
                         (snd (registerTool Sample.bare new_ToolRegistry))
                         (Sample.machine
                            (Sample.with_dir ["broken.js"; "good.js"]))))).
  reflexivity.
Defined.

(** X4: when no custom directory is configured ([customToolsDir] missing
    or empty), [initialize] on a new registry ends normally, touches
    nothing of the machine, and leaves exactly the five built-in tools,
    listed in the order of their registration. *)
Theorem initialize_without_custom_directory
    (node : Host) (c : config) (w : world) :
  customToolsDir c = None \/ customToolsDir c = Some "" ->
  exists r,
    initialize node c (new_ToolRegistry, w) = (Ok tt, (r, w)) /\
    this_cfg r = Some c /\
    listed_names r =
      ["list_items"; "add_item"; "remove_item"; "search_items"; "get_status"].
Proof.
  intros Hc. eexists. split; [| split].
  - unfold initialize, bind, on_registry, set_config. cbn [fst snd].
    rewrite loadBuiltInTools_run.
    destruct Hc as [-> | ->]; reflexivity.
  - now rewrite registrations_cfg.
  - reflexivity.
Qed.

Lemma initialize_without_custom_directory_witness :
  exists r,
    initialize Sample.node (Sample.cfg None)
      (new_ToolRegistry, Sample.machine Sample.no_files) =
      (Ok tt, (r, Sample.machine Sample.no_files)) /\
    List.length (getTools r) = 5.
Proof.
  destruct (initialize_without_custom_directory Sample.node (Sample.cfg None)
              (Sample.machine Sample.no_files) (or_introl eq_refl))
    as (r & Hrun & _ & Hnames).
  exists r. split; [exact Hrun |].
  unfold listed_names in Hnames.
  rewrite <- (length_map info_name), Hnames. reflexivity.
Defined.

(** X5: a custom directory that does not exist is not an error: the
    loader writes one line and changes nothing else.  A path that exists
    and is not a directory is one: [fs.readdir] throws, [loadCustomTools]
    and with it [initialize] throw that error, nothing is written, and
    the built-in tools stay registered. *)
Theorem loadCustomTools_directory_states
    (node : Host) (toolsDir : string) (r : ToolRegistry) (w : world) :
  (files w (absolute node toolsDir) = Missing ->
   loadCustomTools node toolsDir (r, w) =
   (Ok tt,
    (r, logged ["Custom tools directory not found: " +++
                absolute node toolsDir] w))) /\
  (forall v c,
     files w (absolute node toolsDir) = Json v ->
     customToolsDir c = Some toolsDir -> toolsDir <> "" ->
     loadCustomTools node toolsDir (r, w) =
       (Throw (mkError ("ENOTDIR: not a directory, scandir '" +++
                        absolute node toolsDir +++ "'")), (r, w)) /\
     initialize node c (r, w) =
       (Throw (mkError ("ENOTDIR: not a directory, scandir '" +++
                        absolute node toolsDir +++ "'")),
        (registrations (builtInTools node)
           {| tools := tools r; this_cfg := Some c |}, w))).
Proof.
  split.
  - apply loadCustomTools_no_directory.
  - intros v c E Hc Hne. split.
    + apply loadCustomTools_not_a_directory. left. now exists v.
    + unfold initialize, bind, on_registry, set_config. cbn [fst snd].
      rewrite loadBuiltInTools_run, Hc. cbn [opt_string truthy].
      apply String.eqb_neq in Hne. rewrite Hne. cbn [negb].
      rewrite loadCustomTools_not_a_directory by (left; now exists v).
      reflexivity.
Qed.

Lemma loadCustomTools_directory_states_witness :
  loadCustomTools Sample.node "/tools"
    (new_ToolRegistry, Sample.machine Sample.no_files) =
  (Ok tt,
   (new_ToolRegistry,
    logged ["Custom tools directory not found: /tools"]
           (Sample.machine Sample.no_files))).
Proof.
  apply (proj1 (loadCustomTools_directory_states Sample.node "/tools"
                  new_ToolRegistry (Sample.machine Sample.no_files))).
  reflexivity.
Defined.

(** ** The server's request handlers *)






(** ** What the handlers leave alone *)

Section ReadOnly.
Context {S : Type}.

Lemma read_only_ret {A} (a : A) : read_only (@ret S A a).
Proof. now intros s. Qed.

Lemma read_only_throw {A} (e : Error) : read_only (@throw S A e).
Proof. now intros s. Qed.

Lemma read_only_lift {A} (o : outcome A) : read_only (@lift_outcome S A o).
Proof. now intros s. Qed.

Lemma read_only_bind {A B} (m : M S A) (k : A -> M S B) :
  read_only m -> (forall a, read_only (k a)) -> read_only (bind m k).
Proof.
  intros Hm Hk s. unfold bind. specialize (Hm s).
  destruct (m s) as [[a | e] s']; cbn [snd] in *; subst s'; [apply Hk | trivial].
Qed.

Lemma read_only_not_a_function {A} (v : value) (expr meth : string) :
  read_only (@not_a_function S A v expr meth).
Proof. destruct v; apply read_only_throw. Qed.

Lemma read_only_filterM {A} (p : A -> M S bool) (l : list A) :
  (forall x, read_only (p x)) -> read_only (filterM p l).
Proof.
  intros Hp. induction l as [|x t IH]; [apply read_only_ret |].
  cbn [filterM]. apply read_only_bind; [apply Hp | intros keep].
  apply read_only_bind; [exact IH | intros rest; apply read_only_ret].
Qed.

Lemma read_only_someM {A} (p : A -> M S bool) (l : list A) :
  (forall x, read_only (p x)) -> read_only (someM p l).
Proof.
  intros Hp. induction l as [|x t IH]; [apply read_only_ret |].
  cbn [someM]. apply read_only_bind; [apply Hp | intros found].
  destruct found; [apply read_only_ret | exact IH].
Qed.

Lemma read_only_array_filter (arr : value) (expr : string)
    (cb : value -> M S bool) :
  (forall x, read_only (cb x)) -> read_only (array_filter arr expr cb).
Proof.
  intros Hcb. destruct arr; try apply read_only_not_a_function.
  cbn [array_filter]. apply read_only_bind;
    [now apply read_only_filterM | intros kept; apply read_only_ret].
Qed.

Lemma read_only_array_some (arr : value) (expr : string)
    (cb : value -> M S bool) :
  (forall x, read_only (cb x)) -> read_only (array_some arr expr cb).
Proof.
  intros Hcb. destruct arr; try apply read_only_not_a_function.
  cbn [array_some]. now apply read_only_someM.
Qed.

Lemma read_only_slice0 (node : Host) (v : value) (expr : string) (e : value) :
  read_only (@slice0 node S v expr e).
Proof.
  destruct v; try apply read_only_not_a_function; apply read_only_ret.
Qed.

Lemma read_only_toLowerCase (node : Host) (v : value) (expr : string) :
  read_only (@string_toLowerCase node S v expr).
Proof.
  destruct v; try apply read_only_not_a_function; apply read_only_ret.
Qed.
End ReadOnly.

Lemma read_only_existsSync (p : string) : read_only (existsSync p).
Proof. now intros w. Qed.

Lemma read_only_readJson (p : string) : read_only (readJson p).
Proof. intros w. unfold readJson. now destruct (files w p). Qed.

Lemma read_only_dataFile (node : Host) (this : this_view) :
  read_only (dataFile node this).
Proof.
  unfold dataFile. destruct (this_config this);
    [apply read_only_ret | apply read_only_throw].
Qed.

Ltac read_only_step :=
  first
    [ apply read_only_ret | apply read_only_throw | apply read_only_lift
    | apply read_only_existsSync | apply read_only_readJson
    | apply read_only_dataFile | apply read_only_slice0
    | apply read_only_toLowerCase
    | apply read_only_array_filter; intros ?
    | apply read_only_array_some; intros ?
    | apply read_only_bind; [| intros ?]
    | match goal with
      | |- read_only (if ?b then _ else _) => destruct b
      | |- read_only (match ?v with _ => _ end) => destruct v
      end ].

(** X8: [list_items], [search_items] and [get_status] only read: whatever
    the registry view, the arguments and the machine, and whether they
    return or throw, they leave the machine exactly as it was -- no file,
    no console line, no clock reading. *)
Theorem reading_handlers_change_nothing
    (node : Host) (this : this_view) (args : value) (w : world) :
  snd (list_items_handler node this args w) = w /\
  snd (search_items_handler node this args w) = w /\
  snd (get_status_handler node this args w) = w.
Proof.
  split; [| split].
  - revert w. change (read_only (list_items_handler node this args)).
    unfold list_items_handler. repeat read_only_step.
  - revert w. change (read_only (search_items_handler node this args)).
    unfold search_items_handler. repeat read_only_step.
  - revert w. change (read_only (get_status_handler node this args)).
    unfold get_status_handler. repeat read_only_step.
Qed.

Lemma same_but_file_refl (p : string) (w : world) : same_but_file p w w.
Proof. now repeat split. Qed.

Lemma same_but_file_trans (p : string) (w1 w2 w3 : world) :
  same_but_file p w1 w2 -> same_but_file p w2 w3 -> same_but_file p w1 w3.
Proof.
  intros (Hf & Hc & Ho & Hi) (Hf' & Hc' & Ho' & Hi').
  repeat split; try congruence.
  intros q Hq. now rewrite Hf', Hf.
Qed.

Lemma confined_read_only {A} (p : string) (m : M world A) :
  read_only m -> confined_to p m.
Proof. intros H w. rewrite H. apply same_but_file_refl. Qed.

Lemma confined_bind {A B} (p : string) (m : M world A) (k : A -> M world B) :
  confined_to p m -> (forall a, confined_to p (k a)) ->
  confined_to p (bind m k).
Proof.
  intros Hm Hk w. unfold bind. specialize (Hm w).
  destruct (m w) as [[a | e] w1]; cbn [snd] in *; [| exact Hm].
  exact (same_but_file_trans p w w1 _ Hm (Hk a w1)).
Qed.

Lemma confined_Date_now (p : string) : confined_to p Date_now.
Proof. intros w. now repeat split. Qed.

Lemma confined_writeJson (p : string) (v : value) :
  confined_to p (writeJson p v).
Proof.
  intros w. unfold writeJson.
  destruct (files w p); cbn [snd]; try apply same_but_file_refl;
    (repeat split; cbn [files]; intros q Hq; apply String.eqb_neq in Hq;
     now rewrite Hq).
Qed.

Lemma read_only_array_push {S} (arr : value) (expr : string) (x : value) :
  read_only (@array_push S arr expr x).
Proof.
  destruct arr; try apply read_only_not_a_function. apply read_only_ret.
Qed.

Ltac confined_step :=
  first
    [ apply confined_Date_now | apply confined_writeJson
    | apply confined_bind; [| intros ?]
    | match goal with
      | |- confined_to _ (if ?b then _ else _) => destruct b
      end
    | apply confined_read_only;
      solve [ apply read_only_array_push | repeat read_only_step ] ].

Ltac as_confined p :=
  match goal with
  | |- forall w, same_but_file _ w (snd (?m w)) => change (confined_to p m)
  end.

(** X9: [add_item] and [remove_item] write nowhere but to the data file
    [items.json] of the configured data directory: whatever the arguments
    and the machine, and whether they return or throw, every other file
    and standard error are as before. *)
Theorem writing_handlers_touch_only_the_data_file
    (node : Host) (this : this_view) (c : config) (args : value) (w : world) :
  this_config this = Some c ->
  let p := path_join node (dataDir c) "items.json" in
  same_but_file p w (snd (add_item_handler node this args w)) /\
  same_but_file p w (snd (remove_item_handler node this args w)).
Proof.
  intros Hcfg p. split; revert w.
  - unfold add_item_handler, dataFile. rewrite Hcfg.
    unfold bind at 1, ret at 1. cbv beta iota. fold p.
    as_confined p. repeat confined_step.
  - unfold remove_item_handler, dataFile. rewrite Hcfg.
    unfold bind at 1, ret at 1. cbv beta iota. fold p.
    as_confined p. repeat confined_step.
Qed.

Lemma writing_handlers_touch_only_the_data_file_witness :
  files (snd (add_item_handler Sample.node Sample.this
                (VObj [("name", VStr "A")])
                (Sample.machine (Sample.with_dir ["a.js"]))))
        "/tools" = Dir ["a.js"].
Proof.
  destruct (writing_handlers_touch_only_the_data_file Sample.node Sample.this
              (Sample.cfg None) (VObj [("name", VStr "A")])
              (Sample.machine (Sample.with_dir ["a.js"])) eq_refl)
    as [(Hfiles & _) _].
  rewrite Hfiles; [reflexivity | discriminate].
Defined.

(** ** What the item tools compute *)

Lemma bind_run {S A B} (m : M S A) (k : A -> M S B) (s : S) (a : A) (s' : S) :
  m s = (Ok a, s') -> bind m k s = k a s'.
Proof. intros H. unfold bind. now rewrite H. Qed.

Lemma bind_fail {S A B} (m : M S A) (k : A -> M S B) (s : S) (e : Error)
    (s' : S) :
  m s = (Throw e, s') -> bind m k s = (Throw e, s').
Proof. intros H. unfold bind. now rewrite H. Qed.

Ltac run a s tac := rewrite (bind_run _ _ _ a s) by tac; cbv beta.

Lemma someM_pure {S A} (cb : A -> M S bool) (f : A -> bool)
    (l : list A) (s : S) :
  (forall x, In x l -> cb x s = (Ok (f x), s)) ->
  someM cb l s = (Ok (existsb f l), s).
Proof.
  induction l as [|x t IH]; intros H; [reflexivity |].
  cbn [someM existsb]. rewrite (bind_run _ _ s (f x) s) by (apply H; now left).
  destruct (f x); [reflexivity |]. apply IH. intros y Hy. apply H. now right.
Qed.

Lemma field_of_record (item : value) (k : string) :
  is_record item = true -> get_prop item k = Ok (field_of item k).
Proof. destruct item; try discriminate. reflexivity. Qed.

Lemma list_items_run (node : Host) (this : this_view) (c : config)
    (args f k : value) (w : world) (props : list (string * value))
    (l : list value) :
  this_config this = Some c ->
  get_prop args "filter" = Ok f -> get_prop args "limit" = Ok k ->
  files w (path_join node (dataDir c) "items.json") = Json (VObj props) ->
  assoc "items" props = Some (VArr l) ->
  forallb is_record l = true ->
  list_items_handler node this args w =
  if truthy f then
    match RegExp node f "i" with
    | Ok test =>
        (Ok (counted "items" (limited node k (filter (matches test) l))), w)
    | Throw e => (Throw e, w)
    end
  else (Ok (counted "items" (limited node k l)), w).
Proof.
  intros Hcfg Hf Hk Hfile Hitems Hrec.
  assert (Hlimit : forall kept : list value,
    (limit <- lift_outcome (get_prop args "limit");;
     items0 <- (if truthy limit then slice0 node (VArr kept) "items" limit
                else ret (VArr kept));;
     count <- lift_outcome (get_prop items0 "length");;
     ret (VObj [("items", items0); ("count", count)]))%js w =
    (Ok (counted "items" (limited node k kept)), w)).
  { intros kept. run k w ltac:(unfold lift_outcome; now rewrite Hk).
    unfold limited. destruct (truthy k); reflexivity. }
  unfold list_items_handler.
  run (path_join node (dataDir c) "items.json") w
      ltac:(unfold dataFile; now rewrite Hcfg).
  run true w ltac:(unfold existsSync; now rewrite Hfile).
  cbn [negb].
  run (VObj props) w ltac:(unfold readJson; now rewrite Hfile).
  run (VArr l) w ltac:(unfold lift_outcome; cbn [get_prop]; now rewrite Hitems).
  cbv zeta. cbn [js_or truthy].
  run f w ltac:(unfold lift_outcome; now rewrite Hf).
  destruct (truthy f); [| run (VArr l) w ltac:(reflexivity); apply Hlimit].
  destruct (RegExp node f "i") as [test | e] eqn:Ere.
  - run (VArr (filter (matches test) l)) w
        ltac:(rewrite bind_Ok; unfold array_filter;
              rewrite (bind_run _ _ w (filter (matches test) l) w);
              [ reflexivity
              | apply filterM_pure; intros x Hx;
                rewrite forallb_forall in Hrec;
                rewrite !(field_of_record x _ (Hrec x Hx)), !bind_Ok;
                unfold matches;
                now destruct (test (field_of x "name")) ]).
    apply Hlimit.
  - apply bind_fail. now apply bind_fail.
Qed.

(** X10: on a stored collection [list_items] filters first and limits
    afterwards, and the count it returns is that of the items it returns:
    with a truthy [filter] it keeps the records whose [name] or
    [description] passes the case-insensitive pattern, in order, and
    throws what [new RegExp] throws for a filter that is no pattern,
    whatever the limit. *)
Theorem list_items_filters_then_limits
    (node : Host) (this : this_view) (c : config) (args f k : value)
    (w : world) (l : list value) :
  this_config this = Some c ->
  get_prop args "filter" = Ok f -> get_prop args "limit" = Ok k ->
  stored_collection (path_join node (dataDir c) "items.json") w l ->
  (truthy f = false ->
   list_items_handler node this args w =
     (Ok (counted "items" (limited node k l)), w)) /\
  (forall test,
     truthy f = true -> RegExp node f "i" = Ok test ->
     list_items_handler node this args w =
       (Ok (counted "items" (limited node k (filter (matches test) l))), w)) /\
  (forall e,
     truthy f = true -> RegExp node f "i" = Throw e ->
     list_items_handler node this args w = (Throw e, w)).
Proof.
  intros Hcfg Hf Hk (props & Hfile & Hitems & _ & Hrec).
  rewrite (list_items_run node this c args f k w props l
             Hcfg Hf Hk Hfile Hitems Hrec).
  split; [| split].
  - now intros ->.
  - now intros test -> ->.
  - now intros e -> ->.
Qed.

Lemma list_items_filters_then_limits_witness :
  list_items_handler Sample.node Sample.this
    (VObj [("filter", VStr "e"); ("limit", VNum 1)])
    (Sample.machine (Sample.with_items Sample.two_items)) =
  (Ok (VObj [("items", VArr [Sample.item "1" "pen" "blue"]);
             ("count", VNum 1)]),
   Sample.machine (Sample.with_items Sample.two_items)).
Proof.
  destruct (list_items_filters_then_limits Sample.node Sample.this
              (Sample.cfg None)
              (VObj [("filter", VStr "e"); ("limit", VNum 1)])
              (VStr "e") (VNum 1)
              (Sample.machine (Sample.with_items Sample.two_items))
              Sample.two_items eq_refl eq_refl eq_refl) as (_ & H & _).
  - exists [("items", VArr Sample.two_items)]. repeat split.
  - exact (H _ eq_refl eq_refl).
Defined.

Lemma firstn_min_length {A} (n : nat) (l : list A) :
  firstn (Nat.min n (List.length l)) l = firstn n l.
Proof. now rewrite <- firstn_firstn, firstn_all. Qed.

(** X11: a numeric limit on the whole collection.  A positive [limit]
    gives the first [limit] items, all of them when there are fewer.  A
    negative one is no error: it is counted from the end, so that
    [limit: -k] returns all but the last [k] items. *)
Theorem list_items_numeric_limit
    (node : Host) (this : this_view) (c : config) (args f : value) (k : Z)
    (w : world) (l : list value) :
  this_config this = Some c ->
  get_prop args "filter" = Ok f -> truthy f = false ->
  get_prop args "limit" = Ok (VNum k) ->
  stored_collection (path_join node (dataDir c) "items.json") w l ->
  ((0 < k)%Z ->
   list_items_handler node this args w =
     (Ok (counted "items" (firstn (Z.to_nat k) l)), w)) /\
  ((k < 0)%Z ->
   list_items_handler node this args w =
     (Ok (counted "items" (firstn (List.length l - Z.to_nat (- k)) l)), w)).
Proof.
  intros Hcfg Hf Hft Hk (props & Hfile & Hitems & _ & Hrec).
  rewrite (list_items_run node this c args f (VNum k) w props l
             Hcfg Hf Hk Hfile Hitems Hrec), Hft.
  unfold limited, slice_end. cbn [truthy ToIntegerOrInfinity].
  split; intros Hsign.
  - replace (k =? 0)%Z with false by (symmetry; apply Z.eqb_neq; lia).
    replace (k <? 0)%Z with false by (symmetry; apply Z.ltb_ge; lia).
    cbn [negb]. now rewrite firstn_min_length.
  - replace (k =? 0)%Z with false by (symmetry; apply Z.eqb_neq; lia).
    replace (k <? 0)%Z with true by (symmetry; apply Z.ltb_lt; lia).
    cbn [negb].
    replace (Z.to_nat (Z.max (Z.of_nat (List.length l) + k) 0))
      with (List.length l - Z.to_nat (- k))%nat by lia.
    reflexivity.
Qed.

Lemma list_items_numeric_limit_witness :
  list_items_handler Sample.node Sample.this (VObj [("limit", VNum (-1))])
    (Sample.machine (Sample.with_items Sample.two_items)) =
  (Ok (VObj [("items", VArr [Sample.item "1" "pen" "blue"]);
             ("count", VNum 1)]),
   Sample.machine (Sample.with_items Sample.two_items)).
Proof.
  destruct (list_items_numeric_limit Sample.node Sample.this
              (Sample.cfg None) (VObj [("limit", VNum (-1))]) VUndefined
              (-1)%Z (Sample.machine (Sample.with_items Sample.two_items))
              Sample.two_items eq_refl eq_refl eq_refl eq_refl) as [_ H].
  - exists [("items", VArr Sample.two_items)]. repeat split.
  - apply H. reflexivity.
Defined.

Lemma field_test_pure (node : Host) (query : string) (v : value) (w : world) :
  match v with
  | VStr s => ret (includes (toLowerCase node s) query)
  | VNull | VArr _ | VObj _ =>
      ret (includes (toLowerCase node (JSON_stringify node v)) query)
  | _ => ret false
  end w = (Ok (field_matches node query v), w).
Proof. now destruct v. Qed.

(** X12: on a stored collection and for a string [query], [search_items]
    returns, in order and with their count, the records of which one of
    the fields holds the query: as a substring, ignoring case, of a
    string value or of the JSON text of an object value.  The fields are
    [name] and [description] unless [args.fields] gives others -- none
    of them [__proto__], which every record inherits -- and the machine
    is left as it was. *)
Theorem search_items_finds
    (node : Host) (this : this_view) (c : config) (args fv : value)
    (q : string) (fs : list value) (w : world) (l : list value) :
  this_config this = Some c ->
  get_prop args "query" = Ok (VStr q) ->
  get_prop args "fields" = Ok fv ->
  js_or fv (VArr [VStr "name"; VStr "description"]) = VArr fs ->
  Forall (fun field => ToString node field <> "__proto__") fs ->
  stored_collection (path_join node (dataDir c) "items.json") w l ->
  search_items_handler node this args w =
    (Ok (counted "results"
           (filter (found_in node (toLowerCase node q) fs) l)), w).
Proof.
  intros Hcfg Hq Hfv Hfs _ (props & Hfile & Hitems & _ & Hrec).
  unfold search_items_handler.
  run (path_join node (dataDir c) "items.json") w
      ltac:(unfold dataFile; now rewrite Hcfg).
  run true w ltac:(unfold existsSync; now rewrite Hfile).
  cbn [negb].
  run (VObj props) w ltac:(unfold readJson; now rewrite Hfile).
  run (VStr q) w ltac:(unfold lift_outcome; now rewrite Hq).
  run (toLowerCase node q) w ltac:(reflexivity).
  run fv w ltac:(unfold lift_outcome; now rewrite Hfv).
  cbv zeta. rewrite Hfs.
  run (VArr l) w ltac:(unfold lift_outcome; cbn [get_prop]; now rewrite Hitems).
  run (VArr (filter (found_in node (toLowerCase node q) fs) l)) w
      ltac:(unfold array_filter;
            rewrite (bind_run _ _ w
                       (filter (found_in node (toLowerCase node q) fs) l) w);
            [ reflexivity
            | apply filterM_pure; intros x Hx;
              rewrite forallb_forall in Hrec;
              unfold array_some; apply someM_pure; intros field _;
              rewrite (field_of_record x _ (Hrec x Hx)), bind_Ok;
              apply field_test_pure ]).
  reflexivity.
Qed.

Lemma search_items_finds_witness :
  search_items_handler Sample.node Sample.this (VObj [("query", VStr "cu")])
    (Sample.machine (Sample.with_items Sample.two_items)) =
  (Ok (VObj [("results", VArr [Sample.item "2" "cup" "red"]);
             ("count", VNum 1)]),
   Sample.machine (Sample.with_items Sample.two_items)).
Proof.
  apply (search_items_finds Sample.node Sample.this (Sample.cfg None)
           (VObj [("query", VStr "cu")]) VUndefined "cu"
           [VStr "name"; VStr "description"]
           (Sample.machine (Sample.with_items Sample.two_items))
           Sample.two_items eq_refl eq_refl eq_refl eq_refl).
  - repeat constructor; discriminate.
  - exists [("items", VArr Sample.two_items)]. repeat split.
Defined.

(** X13: without a data file [search_items] returns no results whatever
    its arguments, a missing query included.  With a data file, whatever
    it holds, a query that is not a string makes it throw before any item
    is looked at: a missing query gives the run time's "Cannot read
    properties of undefined (reading 'toLowerCase')". *)
Theorem search_items_without_file_or_query
    (node : Host) (this : this_view) (c : config) (args : value) (w : world) :
  this_config this = Some c ->
  let p := path_join node (dataDir c) "items.json" in
  (files w p = Missing ->
   search_items_handler node this args w =
     (Ok (VObj [("results", VArr []); ("count", VNum 0)]), w)) /\
  (forall data qv,
     files w p = Json data ->
     get_prop args "query" = Ok qv -> (forall s, qv <> VStr s) ->
     exists e,
       search_items_handler node this args w = (Throw e, w) /\
       (qv = VUndefined ->
        message e =
          "Cannot read properties of undefined (reading 'toLowerCase')")).
Proof.
  intros Hcfg p. split.
  - intros Hfile. unfold search_items_handler.
    run p w ltac:(unfold dataFile; now rewrite Hcfg).
    run false w ltac:(unfold existsSync; now rewrite Hfile).
    reflexivity.
  - intros data qv Hfile Hq Hns. unfold search_items_handler.
    run p w ltac:(unfold dataFile; now rewrite Hcfg).
    run true w ltac:(unfold existsSync; now rewrite Hfile).
    cbn [negb].
    run data w ltac:(unfold readJson; now rewrite Hfile).
    run qv w ltac:(unfold lift_outcome; now rewrite Hq).
    destruct qv as [| | b | n | s | el | ps];
      try (eexists; split; [reflexivity | intros; try reflexivity; discriminate]).
    now destruct (Hns s).
Qed.

Lemma search_items_without_file_or_query_witness :
  exists e,
    search_items_handler Sample.node Sample.this (VObj [])
      (Sample.machine (Sample.with_items [])) =
      (Throw e, Sample.machine (Sample.with_items [])) /\
    message e = "Cannot read properties of undefined (reading 'toLowerCase')".
Proof.
  destruct (search_items_without_file_or_query Sample.node Sample.this
              (Sample.cfg None) (VObj [])
              (Sample.machine (Sample.with_items [])) eq_refl) as [_ H].
  destruct (H (VObj [("items", VArr [])]) VUndefined eq_refl eq_refl)
    as (e & Hrun & Hmsg); [discriminate |].
  exists e. split; [exact Hrun | now apply Hmsg].
Defined.

(** X14: called through [executeTool] on a registry holding the
    configuration, [get_status] reports the number of stored items as
    [totalItems] -- zero without a data file -- and as [registeredTools]
    the number of tools [getTools] lists at the time of the call; it
    changes no file. *)
Theorem get_status_reports
    (node : Host) (r : ToolRegistry) (c : config) (t : entry) (args : value)
    (w : world) (l : list value) :
  this_cfg r = Some c ->
  Map_get "get_status" (tools r) = Some t ->
  handler t = get_status_handler node ->
  let p := path_join node (dataDir c) "items.json" in
  stored_collection p w l \/ (files w p = Missing /\ l = []) ->
  executeTool r "get_status" args w =
    (Ok (VObj
       [("serverName", VStr (serverName c));
        ("version", VStr (version c));
        ("uptime", process_uptime node);
        ("statistics",
         VObj [("totalItems", VNum (Z.of_nat (List.length l)));
               ("registeredTools",
                VNum (Z.of_nat (List.length (getTools r))))]);
        ("configuration",
         VObj [("dataDir", VStr (dataDir c));
               ("outputDir", VStr (outputDir c));
               ("debug", VBool (debug c))])]),
     entering "get_status" args w).
Proof.
  intros Hcfg Hget Hh p Hstore.
  assert (Hsize : this_tools_size (view r) = List.length (getTools r)).
  { unfold getTools, Map_values, view, Map_size. cbn [this_tools_size].
    now rewrite !length_map. }
  unfold executeTool. rewrite Hget, Hh. unfold try_catch.
  rewrite (bind_run _ _ w tt (entering "get_status" args w)) by reflexivity.
  set (w0 := entering "get_status" args w).
  assert (Hfiles : files w0 = files w) by reflexivity.
  unfold get_status_handler.
  run p w0 ltac:(unfold dataFile, view; cbn [this_config]; now rewrite Hcfg).
  destruct Hstore as [(props & Hfile & Hitems & _ & _) | [Hfile ->]].
  - run true w0 ltac:(unfold existsSync; now rewrite Hfiles, Hfile).
    run (VNum (Z.of_nat (List.length l))) w0
        ltac:(rewrite (bind_run _ _ w0 (VObj props) w0)
                by (unfold readJson; now rewrite Hfiles, Hfile);
              rewrite (bind_run _ _ w0 (VArr l) w0)
                by (unfold lift_outcome; cbn [get_prop]; now rewrite Hitems);
              rewrite (bind_run _ _ w0 (VNum (Z.of_nat (List.length l))) w0)
                by reflexivity;
              unfold ret, js_or; cbn [truthy];
              now destruct (Z.eqb_spec (Z.of_nat (List.length l)) 0) as [-> |]).
    cbn [this_config view]. rewrite Hcfg. unfold ret.
    now rewrite <- Hsize.
  - run false w0 ltac:(unfold existsSync; now rewrite Hfiles, Hfile).
    run (VNum 0) w0 ltac:(reflexivity).
    cbn [this_config view]. rewrite Hcfg. unfold ret.
    now rewrite <- Hsize.
Qed.

Lemma get_status_reports_witness :
  exists v,
    executeTool
      (fst (Sample.started (Sample.machine (Sample.with_items Sample.two_items))))
      "get_status" VUndefined
      (Sample.machine (Sample.with_items Sample.two_items)) =
    (Ok v,
     entering "get_status" VUndefined
       (Sample.machine (Sample.with_items Sample.two_items))) /\
    get_prop v "statistics" =
      Ok (VObj [("totalItems", VNum 2); ("registeredTools", VNum 5)]).
Proof.
  eexists. split.
  - apply (get_status_reports Sample.node
             (fst (Sample.started
                     (Sample.machine (Sample.with_items Sample.two_items))))
             (Sample.cfg None)
             {| name := "get_status";
                description := VStr "Get system status and statistics";
                inputSchema := VObj [("type", VStr "object");
                                     ("properties", VObj [])];
                handler := get_status_handler Sample.node |}
             VUndefined
             (Sample.machine (Sample.with_items Sample.two_items))
             Sample.two_items eq_refl eq_refl eq_refl).
    left. exists [("items", VArr Sample.two_items)]. repeat split.
  - reflexivity.
Defined.

(** ** Sequences of calls on the collection *)



(** [remove_item] on a stored collection, by whether some record has the
    id. *)
Lemma remove_item_stored (node : Host) (this : this_view) (c : config)
    (args X : value) (w : world) (l : list value) :
  this_config this = Some c ->
  get_prop args "id" = Ok X ->
  let p := path_join node (dataDir c) "items.json" in
  stored_collection p w l ->
  (forallb (not_matching X) l = true ->
   remove_item_handler node this args w =
     (Throw (mkError ("Item with ID '" +++ ToString node X +++
                      "' not found")), w)) /\
  (forallb (not_matching X) l = false ->
   exists w',
     remove_item_handler node this args w =
       (Ok (VObj [("success", VBool true);
                  ("message", VStr ("Item '" +++ ToString node X +++
                                    "' removed successfully"))]), w') /\
     stored_collection p w' (filter (not_matching X) l) /\
     (forall q, q <> p -> files w' q = files w q)).
Proof.
  intros Hcfg Hid p (props & Hfile & Hitems & Hjson & Hrec).
  pose proof (remove_item_run node this c args X w props l
                Hcfg Hid Hfile Hitems Hrec) as Hrun.
  fold p in Hrun. split; intros Hall; rewrite Hrun.
  - apply filter_all_iff in Hall. rewrite Hall. now rewrite Z.eqb_refl.
  - destruct (_ =? _)%Z eqn:E.
    + apply Z.eqb_eq, Nat2Z.inj, filter_all_iff in E. congruence.
    + assert (Hkj : forallb is_json (filter (not_matching X) l) = true).
      { apply forallb_filter_sub.
        apply (is_json_assoc "items" props (VArr l) Hjson Hitems). }
      assert (Hkr : forallb is_record (filter (not_matching X) l) = true)
        by now apply forallb_filter_sub.
      assert (Hnd : forall es, files w p <> Dir es)
        by (intros es; rewrite Hfile; discriminate).
      destruct (writeJson p _ w) as [[[] | e] w'] eqn:Ew.
      * exists w'. split; [reflexivity |].
        destruct (written_collection p w w' props _ Hnd Hjson Hkj Hkr Ew)
          as (Hs & Hq & _). now split.
      * unfold writeJson in Ew. rewrite Hfile in Ew. discriminate.
Qed.





(** X17: an id can be removed once.  After a successful [remove_item] on
    a stored collection no record with that id is left, so that the same
    call made again throws "Item with ID '...' not found" and changes
    nothing. *)
Theorem remove_item_twice
    (node : Host) (this : this_view) (c : config) (args X v : value)
    (w w' : world) (l : list value) :
  this_config this = Some c ->
  get_prop args "id" = Ok X ->
  stored_collection (path_join node (dataDir c) "items.json") w l ->
  remove_item_handler node this args w = (Ok v, w') ->
  remove_item_handler node this args w' =
    (Throw (mkError ("Item with ID '" +++ ToString node X +++
                     "' not found")), w').
Proof.
  intros Hcfg Hid Hs Hrun.
  destruct (remove_item_stored node this c args X w l Hcfg Hid Hs)
    as [Hnone Hsome].
  destruct (forallb (not_matching X) l) eqn:E.
  - rewrite (Hnone eq_refl) in Hrun. discriminate.
  - destruct (Hsome eq_refl) as (w1 & Hrun1 & Hs1 & _).
    rewrite Hrun1 in Hrun. injection Hrun as _ <-.
    apply (remove_item_stored node this c args X w1 _ Hcfg Hid Hs1).
    apply forallb_forall. intros x Hx. now apply filter_In in Hx.
Qed.

Lemma remove_item_twice_witness :
  let w' :=
    snd (remove_item_handler Sample.node Sample.this (VObj [("id", VStr "1")])
           (Sample.machine (Sample.with_items Sample.two_items))) in
  remove_item_handler Sample.node Sample.this (VObj [("id", VStr "1")]) w' =
  (Throw (mkError "Item with ID '1' not found"), w').
Proof.
  apply (remove_item_twice Sample.node Sample.this (Sample.cfg None)
           (VObj [("id", VStr "1")]) (VStr "1")
           (VObj [("success", VBool true);
                  ("message", VStr "Item '1' removed successfully")])
           (Sample.machine (Sample.with_items Sample.two_items)) _
           Sample.two_items eq_refl eq_refl).
  - exists [("items", VArr Sample.two_items)]. repeat split.
  - reflexivity.
Defined.

(** ** Failed calls *)

Lemma keeps_files_read_only {A} (m : M world A) :
  read_only m -> keeps_files m.
Proof. intros H w. now rewrite H. Qed.

Lemma keeps_files_Date_now : keeps_files Date_now.
Proof. now intros w. Qed.

Lemma quiet_keeps {A} (m : M world A) : keeps_files m -> quiet_failure m.
Proof. intros H w e w' E. specialize (H w). now rewrite E in H. Qed.

Lemma quiet_bind {A B} (m : M world A) (k : A -> M world B) :
  keeps_files m -> (forall a, quiet_failure (k a)) ->
  quiet_failure (bind m k).
Proof.
  intros Hm Hk w e w'. unfold bind. specialize (Hm w).
  destruct (m w) as [[a | e0] w1]; cbn [snd] in Hm.
  - intros E. rewrite <- Hm. exact (Hk a w1 e w' E).
  - now intros [= _ <-].
Qed.

(** A write followed by steps that cannot throw. *)
Lemma quiet_write_then {A} (p : string) (v : value) (k : M world A) :
  (forall w, exists a, fst (k w) = Ok a) ->
  quiet_failure (writeJson p v ;;; k).
Proof.
  intros Hk w e w'. unfold bind.
  destruct (writeJson p v w) as [[[] | e1] w1] eqn:Ew.
  - destruct (Hk w1) as [a Ha]. intros E. rewrite E in Ha. discriminate.
  - intros [= _ <-]. unfold writeJson in Ew.
    destruct (files w p); try discriminate Ew. now injection Ew as _ <-.
Qed.

Ltac quiet_step :=
  first
    [ apply quiet_write_then; intros ?; eexists; reflexivity
    | apply quiet_bind;
      [ first [ apply keeps_files_Date_now
              | apply keeps_files_read_only;
                solve [ apply read_only_array_push | repeat read_only_step ] ]
      | intros ? ]
    | match goal with
      | |- quiet_failure (if ?b then _ else _) => destruct b
      end
    | apply quiet_keeps, keeps_files_read_only;
      solve [ repeat read_only_step ] ].

Lemma remove_item_quiet (node : Host) (this : this_view) (args : value) :
  quiet_failure (remove_item_handler node this args).
Proof.
  unfold remove_item_handler.
  destruct (get_prop args "id") as [X | e0] eqn:Hid.
  - repeat quiet_step.
  - do 2 quiet_step. quiet_step; [repeat quiet_step |].
    do 2 quiet_step. rename a1 into data, a2 into data_items.
    intros w e w' E.
    assert (Hsame : w' = w); [| now subst].
    unfold bind, lift_outcome, array_filter, not_a_function, throw, ret in E.
    destruct data_items as [| | b | n | s | [|x t] | ps];
      try (cbn in E; now injection E as _ <-).
    + destruct data; cbn in E; now injection E as _ <-.
    + cbn [filterM] in E. unfold bind, lift_outcome in E.
      destruct x; cbn in E; now injection E as _ <-.
Qed.

(** X18: a call of [add_item] or [remove_item] that fails has written
    nothing: whatever the arguments, the configuration and the machine,
    when the handler throws, every file is as it was before the call. *)
Theorem failed_write_changes_no_file
    (node : Host) (this : this_view) (args : value) (w w' : world)
    (e : Error) :
  add_item_handler node this args w = (Throw e, w') \/
  remove_item_handler node this args w = (Throw e, w') ->
  files w' = files w.
Proof.
  intros [E | E]; revert w e w' E.
  - change (quiet_failure (add_item_handler node this args)).
    unfold add_item_handler. repeat quiet_step.
  - apply remove_item_quiet.
Qed.

Lemma failed_write_changes_no_file_witness :
  files (snd (add_item_handler Sample.node Sample.this VUndefined
                (Sample.machine (Sample.with_items Sample.two_items)))) =
  Sample.with_items Sample.two_items.
Proof.
  apply (failed_write_changes_no_file Sample.node Sample.this VUndefined
           (Sample.machine (Sample.with_items Sample.two_items)) _
           (mkError "Cannot read properties of undefined (reading 'name')")).
  left. reflexivity.
Defined.

(** ** The configuration loader *)

Lemma deepMerge_fold_lookup (tps sps out : list (string * value))
    (k : string) :
  NoDup (map fst sps) ->
  assoc k
    (fold_left
       (fun output kv =>
          let key := fst kv in
          if truthy (isObject (snd kv)) then
            match assoc key tps with
            | None => assoc_set key (snd kv) output
            | Some tv =>
                assoc_set key (VObj (deepMerge_props tv (snd kv))) output
            end
          else assoc_set key (snd kv) output)
       sps out) =
  match assoc k sps with
  | None => assoc k out
  | Some sv =>
      Some (if truthy (isObject sv) then
              match assoc k tps with
              | None => sv
              | Some tv => deepMerge tv sv
              end
            else sv)
  end.
Proof.
  revert out. induction sps as [|[key sv] t IH]; intros out Hnd;
    [reflexivity |].
  cbn [map fst] in Hnd. apply NoDup_cons_iff in Hnd. destruct Hnd as [Hk Ht].
  cbn [fold_left assoc fst snd]. rewrite (IH _ Ht).
  destruct (k =? key)%string eqn:E.
  - apply String.eqb_eq in E. subst key.
    assert (Hnone : assoc k t = None) by now apply Map_get_None_keys.
    rewrite Hnone. cbv zeta. unfold deepMerge.
    destruct (truthy (isObject sv)); [destruct (assoc k tps) |];
      apply Map_get_set_same.
  - assert (Hne : k <> key) by now apply String.eqb_neq.
    destruct (assoc k t); [reflexivity |]. cbv zeta.
    destruct (truthy (isObject sv)); [destruct (assoc key tps) |];
      now apply Map_get_set_other.
Qed.

Lemma deepMerge_props_objects (tps sps : list (string * value)) :
  deepMerge_props (VObj tps) (VObj sps) =
  fold_left
    (fun output kv =>
       let key := fst kv in
       if truthy (isObject (snd kv)) then
         match assoc key tps with
         | None => assoc_set key (snd kv) output
         | Some tv =>
             assoc_set key (VObj (deepMerge_props tv (snd kv))) output
         end
       else assoc_set key (snd kv) output)
    sps tps.
Proof. reflexivity. Qed.

Lemma deepMerge_props_not_object (tps : list (string * value))
    (source : value) :
  (forall ps, source <> VObj ps) ->
  deepMerge_props (VObj tps) source = tps.
Proof.
  intros H. destruct source as [| | b | n | s | l | ps]; try reflexivity.
  - now destruct b.
  - unfold deepMerge_props. now destruct (_ && _).
  - unfold deepMerge_props. now destruct (_ && _).
  - now destruct (H ps).
Qed.

Lemma deepMerge_lookup (tps sps : list (string * value)) (k : string) :
  NoDup (map fst sps) ->
  prop (deepMerge_props (VObj tps) (VObj sps)) k =
    match assoc k sps with
    | None => prop tps k
    | Some sv =>
        if truthy (isObject sv) then
          match assoc k tps with
          | None => sv
          | Some tv => deepMerge tv sv
          end
        else sv
    end.
Proof.
  intros Hnd. unfold prop. rewrite deepMerge_props_objects.
  rewrite (deepMerge_fold_lookup tps sps tps k Hnd).
  now destruct (assoc k sps).
Qed.

(** X19: [deepMerge] of two objects, key by key: a key the source does
    not have keeps the target's value; a key it has takes the source's
    value, except that an object value met by a value already in the
    target is merged into that one in the same way.  A source that is no
    object -- an array, [null], a string -- changes nothing. *)
Theorem deepMerge_by_key (tps sps : list (string * value)) (k : string) :
  NoDup (map fst sps) ->
  own_names_only (VObj tps) = true -> own_names_only (VObj sps) = true ->
  prop (deepMerge_props (VObj tps) (VObj sps)) k =
    match assoc k sps with
    | None => prop tps k
    | Some sv =>
        if truthy (isObject sv) then
          match assoc k tps with
          | None => sv
          | Some tv => deepMerge tv sv
          end
        else sv
    end /\
  (forall source,
     (forall ps, source <> VObj ps) ->
     deepMerge (VObj tps) source = VObj tps).
Proof.
  intros Hnd _ _. split.
  - now apply deepMerge_lookup.
  - intros source H. unfold deepMerge.
    now rewrite deepMerge_props_not_object.
Qed.

Lemma deepMerge_by_key_witness :
  prop (deepMerge_props (VObj getDefaults)
          (VObj [("tools", VObj [("customToolsDir", VStr "/opt/tools")])]))
       "tools" =
  VObj [("enabled", VBool true); ("customToolsDir", VStr "/opt/tools")].
Proof.
  apply (proj1 (deepMerge_by_key getDefaults
                  [("tools", VObj [("customToolsDir", VStr "/opt/tools")])]
                  "tools"
                  ltac:(repeat constructor; cbn; tauto) eq_refl eq_refl)).
Defined.

Lemma loadConfigFile_run (filePath : string) (L : ConfigLoader) (w : world) :
  loadConfigFile filePath (L, w) =
  match fst (readJson filePath w) with
  | Ok v =>
      (Ok tt,
       ({| loader_config := deepMerge_props (VObj (loader_config L)) v;
           configPath := configPath L |},
        logged ["Loaded configuration from: " +++ filePath] w))
  | Throw e =>
      (Ok tt, (L, logged ["Failed to load config file: " +++ message e] w))
  end.
Proof.
  unfold loadConfigFile, try_catch, bind, in_world, readJson.
  cbn [fst snd]. destruct (files w filePath); reflexivity.
Qed.



Lemma findConfigFile_in_spec (ls : list (option string)) (L : ConfigLoader)
    (w : world) :
  exists r L',
    findConfigFile_in ls (L, w) = (Ok r, (L', w)) /\
    loader_config L' = loader_config L /\
    match r with
    | Some p =>
        configPath L' = Some p /\ p <> "" /\ files w p <> Missing /\
        exists before after,
          ls = before ++ Some p :: after /\
          forall q, In (Some q) before -> q = "" \/ files w q = Missing
    | None =>
        L' = L /\ forall q, In (Some q) ls -> q = "" \/ files w q = Missing
    end.
Proof.
  induction ls as [|[p|] rest IH].
  - exists None, L. repeat split. intros q [].
  - cbn [findConfigFile_in truthy fst snd].
    destruct (p =? "")%string eqn:Ep; cbn [negb andb].
    + apply String.eqb_eq in Ep. subst p.
      destruct IH as (r & L' & Hrun & Hcfg & Hr).
      exists r, L'. split; [exact Hrun |]. split; [exact Hcfg |].
      destruct r as [p|].
      * destruct Hr as (Hp & Hne & Hf & before & after & -> & Hb).
        repeat split; try assumption.
        exists (Some "" :: before), after. split; [reflexivity |].
        intros q [[= <-] | Hq]; [now left | now apply Hb].
      * destruct Hr as [-> Hall]. split; [reflexivity |].
        intros q [[= <-] | Hq]; [now left | now apply Hall].
    + apply String.eqb_neq in Ep.
      destruct (files w p) eqn:Ef.
      * destruct IH as (r & L' & Hrun & Hcfg & Hr).
        exists r, L'. split; [exact Hrun |]. split; [exact Hcfg |].
        destruct r as [p'|].
        -- destruct Hr as (Hp & Hne & Hf & before & after & -> & Hb).
           repeat split; try assumption.
           exists (Some p :: before), after. split; [reflexivity |].
           intros q [[= <-] | Hq]; [now right | now apply Hb].
        -- destruct Hr as [-> Hall]. split; [reflexivity |].
           intros q [[= <-] | Hq]; [now right | now apply Hall].
      * eexists (Some p), _. split; [reflexivity |]. split; [reflexivity |].
        repeat split; try assumption; try (rewrite Ef; discriminate).
        exists [], rest. split; [reflexivity |]. intros q [].
      * eexists (Some p), _. split; [reflexivity |]. split; [reflexivity |].
        repeat split; try assumption; try (rewrite Ef; discriminate).
        exists [], rest. split; [reflexivity |]. intros q [].
      * eexists (Some p), _. split; [reflexivity |]. split; [reflexivity |].
        repeat split; try assumption; try (rewrite Ef; discriminate).
        exists [], rest. split; [reflexivity |]. intros q [].
  - cbn [findConfigFile_in].
    destruct IH as (r & L' & Hrun & Hcfg & Hr).
    exists r, L'. split; [exact Hrun |]. split; [exact Hcfg |].
    destruct r as [p|].
    + destruct Hr as (Hp & Hne & Hf & before & after & -> & Hb).
      repeat split; try assumption.
      exists (None :: before), after. split; [reflexivity |].
      intros q [[=] | Hq]. now apply Hb.
    + destruct Hr as [-> Hall]. split; [reflexivity |].
      intros q [[=] | Hq]. now apply Hall.
Qed.

Lemma findConfigFile_in_result (ls : list (option string))
    (L1 L2 : ConfigLoader) (w : world) :
  fst (findConfigFile_in ls (L1, w)) = fst (findConfigFile_in ls (L2, w)).
Proof.
  induction ls as [|[p|] rest IH]; [reflexivity | | exact IH].
  cbn [findConfigFile_in fst snd].
  destruct (truthy (VStr p) && _); [reflexivity | exact IH].
Qed.

(** X21: [findConfigFile] returns the first of its five locations --
    the path in [MCP_CONFIG_PATH], [mcp-config.json] and [config.json]
    of the working directory, the [config.json] two levels above the
    loader, [/etc/mcp-server/config.json] -- at which something exists,
    and records it as [configPath]; it returns [null] and records
    nothing when nothing exists at any of them.  An unset or empty
    [MCP_CONFIG_PATH] is passed over. *)
Theorem findConfigFile_first_existing
    (node : Host) (sys : Process) (L : ConfigLoader) (w : world) :
  exists r L',
    findConfigFile node sys (L, w) = (Ok r, (L', w)) /\
    loader_config L' = loader_config L /\
    match r with
    | Some p =>
        configPath L' = Some p /\ p <> "" /\ files w p <> Missing /\
        exists before after,
          locations node sys = before ++ Some p :: after /\
          forall q, In (Some q) before -> q = "" \/ files w q = Missing
    | None =>
        L' = L /\
        forall q, In (Some q) (locations node sys) ->
                  q = "" \/ files w q = Missing
    end /\
    (forall p,
       process_env sys "MCP_CONFIG_PATH" = Some p -> p <> "" ->
       files w p <> Missing -> r = Some p).
Proof.
  destruct (findConfigFile_in_spec (locations node sys) L w)
    as (r & L' & Hrun & Hcfg & Hr).
  exists r, L'. split; [exact Hrun |]. split; [exact Hcfg |].
  split; [exact Hr |].
  intros p Henv Hne Hf. unfold findConfigFile, locations in Hrun.
  rewrite Henv in Hrun. cbn [findConfigFile_in truthy fst snd] in Hrun.
  apply String.eqb_neq in Hne. rewrite Hne in Hrun. cbn [negb andb] in Hrun.
  destruct (files w p); [now destruct Hf | | |]; now injection Hrun as <- _.
Qed.

Lemma findConfigFile_first_existing_witness :
  fst (findConfigFile Sample.node
         (SampleConfig.sys_with
            (fun n => if (n =? "MCP_CONFIG_PATH")%string
                      then Some "/etc/my.json" else None))
         (new_ConfigLoader,
          SampleConfig.only_file "/etc/my.json" (VObj []))) =
  Ok (Some "/etc/my.json").
Proof.
  destruct (findConfigFile_first_existing Sample.node
              (SampleConfig.sys_with
                 (fun n => if (n =? "MCP_CONFIG_PATH")%string
                           then Some "/etc/my.json" else None))
              new_ConfigLoader
              (SampleConfig.only_file "/etc/my.json" (VObj [])))
    as (r & L' & Hrun & _ & _ & Henv).
  rewrite Hrun. cbn [fst]. f_equal.
  apply (Henv "/etc/my.json"); [reflexivity | discriminate | discriminate].
Defined.

Section Environment.
Variable sys : Process.

(** The loop of [loadEnvironmentVariables] over the mapping entries
    [m]. *)
Lemma environment_loop (m : list (string * string)) (L : ConfigLoader)
    (w : world) :
  exists L',
    for_of m (load_variable sys) (L, w) = (Ok tt, (L', w)) /\
    configPath L' = configPath L /\
    (forall envVar key v,
       NoDup (map snd m) -> In (envVar, key) m ->
       process_env sys envVar = Some v -> v <> "" ->
       assoc key (loader_config L') = Some (parseValue sys v)) /\
    (forall key,
       (forall envVar, In (envVar, key) m ->
                       process_env sys envVar = None \/
                       process_env sys envVar = Some "") ->
       assoc key (loader_config L') = assoc key (loader_config L)) /\
    ((forall envVar key, In (envVar, key) m ->
                         process_env sys envVar = None \/
                         process_env sys envVar = Some "") ->
     L' = L).
Proof.
  revert L. induction m as [|[ev k0] t IH]; intros L.
  - exists L. repeat split. intros envVar key v _ [].
  - cbn [for_of]. unfold bind at 1.
    assert (Hstep : exists L1,
      load_variable sys (ev, k0) (L, w) = (Ok tt, (L1, w)) /\
      configPath L1 = configPath L /\
      (forall v, process_env sys ev = Some v -> v <> "" ->
                 loader_config L1 =
                 assoc_set k0 (parseValue sys v) (loader_config L)) /\
      (process_env sys ev = None \/ process_env sys ev = Some "" -> L1 = L)).
    { unfold load_variable. cbn [fst snd].
      destruct (process_env sys ev) as [v|] eqn:Ev.
      - cbn [truthy]. destruct (v =? "")%string eqn:E; cbn [negb].
        + apply String.eqb_eq in E. subst v. exists L. repeat split.
          intros v [= <-] H. now destruct H.
        + apply String.eqb_neq in E. eexists. split; [reflexivity |].
          cbn [fst snd configPath loader_config]. repeat split.
          * now intros v' [= <-] _.
          * intros [[=] | [= ->]]. now destruct E.
      - exists L. repeat split; intros; try discriminate. }
    destruct Hstep as (L1 & -> & Hp1 & Hset & Hskip).
    destruct (IH L1) as (L' & Hrun & Hp & Hwins & Hkeeps & Hnone).
    exists L'. split; [exact Hrun |]. split; [congruence |].
    split; [| split].
    + intros envVar key v Hnd Hin Henv Hne.
      cbn [map snd] in Hnd. apply NoDup_cons_iff in Hnd.
      destruct Hnd as [Hk0 Hnd]. destruct Hin as [[= -> ->] | Hin].
      * rewrite Hkeeps.
        -- rewrite (Hset v Henv Hne). apply Map_get_set_same.
        -- intros ev' Hin'. destruct Hk0.
           apply (in_map snd) in Hin'. exact Hin'.
      * now apply (Hwins envVar key v).
    + intros key Hunset. rewrite Hkeeps.
      * destruct (process_env sys ev) as [v|] eqn:Ev.
        -- destruct (String.eqb_spec v "") as [-> | Hne].
           ++ rewrite Hskip; [reflexivity | now right].
           ++ rewrite (Hset v eq_refl Hne).
              destruct (String.eqb_spec key k0) as [-> | Hk].
              ** destruct (Hunset ev (or_introl eq_refl)) as [H | H];
                   rewrite Ev in H; [discriminate | now injection H].
              ** now apply Map_get_set_other.
        -- rewrite Hskip; [reflexivity | now left].
      * intros envVar Hin. apply Hunset. now right.
    + intros Hunset. rewrite Hnone.
      * apply Hskip. apply (Hunset ev k0). now left.
      * intros envVar key Hin. apply (Hunset envVar key). now right.
Qed.
End Environment.

Lemma envMapping_keys : NoDup (map snd envMapping).
Proof.
  cbn. repeat constructor; cbn; intuition discriminate.
Qed.

(** X22: [loadEnvironmentVariables] never throws and touches only the
    configuration.  For each of its seven variables that is set and not
    empty, the configuration key it stands for holds the parsed value of
    the variable afterwards; every other key, and the keys of variables
    that are unset or empty, keep what they held. *)
Theorem environment_overrides
    (sys : Process) (L : ConfigLoader) (w : world) :
  exists L',
    loadEnvironmentVariables sys (L, w) = (Ok tt, (L', w)) /\
    configPath L' = configPath L /\
    (forall envVar key v,
       In (envVar, key) envMapping ->
       process_env sys envVar = Some v -> v <> "" ->
       prop (loader_config L') key = parseValue sys v) /\
    (forall key,
       (forall envVar, In (envVar, key) envMapping ->
                       process_env sys envVar = None \/
                       process_env sys envVar = Some "") ->
       prop (loader_config L') key = prop (loader_config L) key).
Proof.
  destruct (environment_loop sys envMapping L w)
    as (L' & Hrun & Hp & Hwins & Hkeeps & _).
  exists L'. split; [exact Hrun |]. split; [exact Hp |]. split.
  - intros envVar key v Hin Henv Hne. unfold prop.
    now rewrite (Hwins envVar key v envMapping_keys Hin Henv Hne).
  - intros key Hunset. unfold prop. now rewrite (Hkeeps key Hunset).
Qed.

Lemma environment_overrides_witness :
  exists L',
    loadEnvironmentVariables
      (SampleConfig.sys_with
         (fun n => if (n =? "MCP_DEBUG")%string then Some "true" else None))
      ({| loader_config := getDefaults; configPath := None |},
       Sample.machine Sample.no_files) =
    (Ok tt, (L', Sample.machine Sample.no_files)) /\
    prop (loader_config L') "debug" = VBool true.
Proof.
  destruct (environment_overrides
              (SampleConfig.sys_with
         (fun n => if (n =? "MCP_DEBUG")%string then Some "true" else None))
              {| loader_config := getDefaults; configPath := None |}
              (Sample.machine Sample.no_files))
    as (L' & Hrun & _ & Hwins & _).
  exists L'. split; [exact Hrun |].
  apply (Hwins "MCP_DEBUG" "debug" "true").
  - cbn. tauto.
  - reflexivity.
  - discriminate.
Defined.

Lemma ensure_directory_run (sys : Process) (p : string) (w : world) :
  p <> "" ->
  exists w',
    ensure_directory sys (VStr p) w = (Ok tt, w') /\
    files w' p <> Missing /\
    (forall q, files w q <> Missing -> files w' q <> Missing) /\
    (files w p <> Missing -> w' = w).
Proof.
  intros Hne. apply String.eqb_neq in Hne.
  unfold ensure_directory, bind, existsSync, ensureDirSync.
  destruct (files w p) eqn:E; cbn [negb].
  - rewrite E, Hne. eexists. split; [reflexivity |]. cbn [files].
    rewrite String.eqb_refl. repeat split; try discriminate.
    + intros q Hq. now destruct (q =? p)%string.
    + intros H. now destruct H.
  - exists w. split; [reflexivity |].
    split; [rewrite E; discriminate |]. now split.
  - exists w. split; [reflexivity |].
    split; [rewrite E; discriminate |]. now split.
  - exists w. split; [reflexivity |].
    split; [rewrite E; discriminate |]. now split.
Qed.

Lemma validateConfig_run (node : Host) (sys : Process) (L : ConfigLoader)
    (w : world) (d o : string) :
  prop (loader_config L) "dataDir" = VStr d ->
  prop (loader_config L) "outputDir" = VStr o ->
  d <> "" -> o <> "" ->
  exists w',
    validateConfig node sys (L, w) =
      (if le_zero node sys (prop (loader_config L) "maxFileSize") then
         Throw (mkError "maxFileSize must be positive")
       else if le_zero node sys (prop (loader_config L) "timeout") then
         Throw (mkError "timeout must be positive")
       else Ok tt,
       (L, w')) /\
    files w' d <> Missing /\ files w' o <> Missing /\
    (files w d <> Missing -> files w o <> Missing -> w' = w).
Proof.
  intros Hd Ho Hdne Hone.
  destruct (ensure_directory_run sys d w Hdne) as (w1 & Hrun1 & Hd1 & Hk1 & Hs1).
  destruct (ensure_directory_run sys o w1 Hone) as (w2 & Hrun2 & Ho2 & Hk2 & Hs2).
  exists w2. split; [| split; [| split]].
  - unfold validateConfig. cbn [fst]. rewrite Hd, Ho.
    unfold bind at 1. unfold in_world at 1. cbn [snd fst for_of].
    unfold bind at 1. rewrite Hrun1. unfold bind at 1. rewrite Hrun2.
    unfold ret at 1.
    destruct (le_zero node sys (prop (loader_config L) "maxFileSize"));
      [reflexivity |].
    destruct (le_zero node sys (prop (loader_config L) "timeout"));
      reflexivity.
  - now apply Hk2.
  - exact Ho2.
  - intros Hfd Hfo. rewrite (Hs1 Hfd) in *. now apply Hs2.
Qed.



Lemma validateConfig_keeps_loader (node : Host) (sys : Process)
    (s : ConfigLoader * world) :
  fst (snd (validateConfig node sys s)) = fst s.
Proof.
  unfold validateConfig, bind, in_world. cbn [fst snd].
  destruct (for_of _ _ (snd s)) as [[[] | e] w']; [| reflexivity].
  destruct (le_zero node sys _); [reflexivity |].
  destruct (le_zero node sys _); reflexivity.
Qed.

Lemma unique_variable (m : list (string * string)) (a b k : string) :
  NoDup (map snd m) -> In (a, k) m -> In (b, k) m -> a = b.
Proof.
  induction m as [|[a0 k0] t IH]; [intros _ [] |].
  cbn [map snd]. intros Hnd. apply NoDup_cons_iff in Hnd.
  destruct Hnd as [Hk Hnd].
  intros [Ha | Ha] [Hb | Hb]; [congruence | | | now apply IH].
  - injection Ha as -> ->. destruct Hk. apply (in_map snd) in Hb. exact Hb.
  - injection Hb as -> ->. destruct Hk. apply (in_map snd) in Ha. exact Ha.
Qed.

(** The configuration that [loadConfig] leaves in the loader, stage by
    stage: the defaults, the file found merged into them, the
    environment on top. *)
Lemma loadConfig_stages (node : Host) (sys : Process) (L : ConfigLoader)
    (w : world) :
  exists r L3 w3 L4,
    fst (findConfigFile node sys (L, w)) = Ok r /\
    loader_config L3 =
      match r with
      | Some p =>
          match fst (readJson p w) with
          | Ok v => deepMerge_props (VObj getDefaults) v
          | Throw _ => getDefaults
          end
      | None => getDefaults
      end /\
    files w3 = files w /\
    (r = None ->
     L3 = {| loader_config := getDefaults; configPath := configPath L |} /\
     w3 = w) /\
    loadEnvironmentVariables sys (L3, w3) = (Ok tt, (L4, w3)) /\
    loadConfig node sys (L, w) =
      match validateConfig node sys (L4, w3) with
      | (Ok _, s) => (Ok (VObj (loader_config (fst s))), s)
      | (Throw e, s) => (Throw e, s)
      end.
Proof.
  set (L1 := {| loader_config := getDefaults; configPath := configPath L |}).
  destruct (findConfigFile_in_spec (locations node sys) L1 w)
    as (r & L2 & Hfind & Hcfg2 & Hr2).
  assert (Hfile : exists L3 w3,
    (match r with
     | Some p => loadConfigFile p
     | None => ret tt
     end) (L2, w) = (Ok tt, (L3, w3)) /\
    loader_config L3 =
      match r with
      | Some p =>
          match fst (readJson p w) with
          | Ok v => deepMerge_props (VObj getDefaults) v
          | Throw _ => getDefaults
          end
      | None => getDefaults
      end /\
    files w3 = files w /\
    (r = None -> L3 = L1 /\ w3 = w)).
  { destruct r as [p|].
    - rewrite loadConfigFile_run.
      destruct (fst (readJson p w)) as [v | e]; eexists; eexists;
        (split; [reflexivity |]); cbn [loader_config]; rewrite ?Hcfg2;
        (split; [reflexivity |]); (split; [reflexivity | discriminate]).
    - exists L2, w. destruct Hr2 as [-> _]. now repeat split. }
  destruct Hfile as (L3 & w3 & Hload & Hcfg3 & Hfiles & Hnone).
  destruct (environment_loop sys envMapping L3 w3) as (L4 & Henv & _).
  exists r, L3, w3, L4.
  split.
  { unfold findConfigFile.
    rewrite (findConfigFile_in_result _ L L1 w), Hfind. reflexivity. }
  split; [exact Hcfg3 |]. split; [exact Hfiles |]. split; [exact Hnone |].
  split; [exact Henv |].
  unfold loadConfig.
  rewrite (bind_run _ _ (L, w) tt (L1, w)) by reflexivity.
  rewrite (bind_run _ _ (L1, w) r (L2, w)) by exact Hfind.
  rewrite (bind_run _ _ (L2, w) tt (L3, w3)) by exact Hload.
  rewrite (bind_run _ _ (L3, w3) tt (L4, w3)) by exact Henv.
  unfold bind.
  destruct (validateConfig node sys (L4, w3)) as [[[] | e] s]; reflexivity.
Qed.

Lemma loadConfig_environment (node : Host) (sys : Process) (L : ConfigLoader)
    (w : world) :
  exists r L3 w3 L4,
    fst (findConfigFile node sys (L, w)) = Ok r /\
    loader_config L3 =
      match r with
      | Some p =>
          match fst (readJson p w) with
          | Ok v => deepMerge_props (VObj getDefaults) v
          | Throw _ => getDefaults
          end
      | None => getDefaults
      end /\
    files w3 = files w /\
    loader_config (fst (snd (loadConfig node sys (L, w)))) =
      loader_config L4 /\
    fst (snd (loadConfig node sys (L, w))) = L4 /\
    snd (loadConfig node sys (L, w)) =
      snd (validateConfig node sys (L4, w3)) /\
    (forall v, fst (loadConfig node sys (L, w)) = Ok v ->
               v = VObj (loader_config L4) /\
               fst (validateConfig node sys (L4, w3)) = Ok tt) /\
    (forall envVar key v,
       In (envVar, key) envMapping ->
       process_env sys envVar = Some v -> v <> "" ->
       prop (loader_config L4) key = parseValue sys v) /\
    (forall key,
       (forall envVar, In (envVar, key) envMapping ->
                       process_env sys envVar = None \/
                       process_env sys envVar = Some "") ->
       prop (loader_config L4) key = prop (loader_config L3) key).
Proof.
  destruct (loadConfig_stages node sys L w)
    as (r & L3 & w3 & L4 & Hr & Hcfg3 & Hfiles & _ & Henv & Hrun).
  pose proof (validateConfig_keeps_loader node sys (L4, w3)) as Hkeep.
  cbn [fst] in Hkeep.
  assert (Hstate : snd (loadConfig node sys (L, w)) =
                   snd (validateConfig node sys (L4, w3))).
  { rewrite Hrun.
    now destruct (validateConfig node sys (L4, w3)) as [[[] | e] s]. }
  exists r, L3, w3, L4.
  split; [exact Hr |]. split; [exact Hcfg3 |]. split; [exact Hfiles |].
  split; [now rewrite Hstate, Hkeep |]. split; [now rewrite Hstate, Hkeep |].
  split; [exact Hstate |]. split.
  { intros v. rewrite Hrun.
    destruct (validateConfig node sys (L4, w3)) as [[[] | e] s];
      cbn [fst snd] in *; [| discriminate].
    intros [= <-]. now subst. }
  destruct (environment_loop sys envMapping L3 w3)
    as (L4' & Henv' & _ & Hwins & Hkeeps & _).
  unfold loadEnvironmentVariables in Henv. rewrite Henv in Henv'.
  injection Henv' as <-. split.
  - intros envVar key v Hin He Hne. unfold prop.
    now rewrite (Hwins envVar key v envMapping_keys Hin He Hne).
  - intros key Hunset. unfold prop. now rewrite (Hkeeps key Hunset).
Qed.

(** X24: the priority of [loadConfig] for the keys that an environment
    variable can set: environment over configuration file over defaults.
    Whether [loadConfig] returns or validation throws, the configuration
    it leaves holds, for such a key, the parsed value of its variable
    when that is set and not empty; otherwise the value the configuration
    file found gives the key, when the file holds a JSON object with the
    key and the value is no object; otherwise -- no file found, a file
    that cannot be read or holds no object, or no such key in it -- the
    default.  What [loadConfig] returns is that configuration. *)
Theorem loadConfig_priority
    (node : Host) (sys : Process) (L : ConfigLoader) (w : world)
    (envVar key : string) :
  In (envVar, key) envMapping ->
  let final := loader_config (fst (snd (loadConfig node sys (L, w)))) in
  (forall v, process_env sys envVar = Some v -> v <> "" ->
             prop final key = parseValue sys v) /\
  (process_env sys envVar = None \/ process_env sys envVar = Some "" ->
   (forall p ps x,
      fst (findConfigFile node sys (L, w)) = Ok (Some p) ->
      files w p = Json (VObj ps) ->
      NoDup (map fst ps) -> own_names_only (VObj ps) = true ->
      assoc key ps = Some x -> truthy (isObject x) = false ->
      prop final key = x) /\
   (forall p ps,
      fst (findConfigFile node sys (L, w)) = Ok (Some p) ->
      files w p = Json (VObj ps) ->
      NoDup (map fst ps) -> own_names_only (VObj ps) = true ->
      assoc key ps = None ->
      prop final key = prop getDefaults key) /\
   (forall p,
      fst (findConfigFile node sys (L, w)) = Ok (Some p) ->
      (forall ps, files w p <> Json (VObj ps)) ->
      prop final key = prop getDefaults key) /\
   (fst (findConfigFile node sys (L, w)) = Ok None ->
    prop final key = prop getDefaults key)) /\
  (forall v, fst (loadConfig node sys (L, w)) = Ok v -> v = VObj final).
Proof.
  intros Hin final.
  destruct (loadConfig_environment node sys L w)
    as (r & L3 & w3 & L4 & Hr & Hcfg3 & _ & Hfinal & _ & _ & Hret & Hwins
        & Hkeeps).
  unfold final. rewrite Hfinal. split; [| split].
  - intros v He Hne. exact (Hwins envVar key v Hin He Hne).
  - intros Hunset.
    assert (Hk : prop (loader_config L4) key = prop (loader_config L3) key).
    { apply Hkeeps. intros ev' Hin'.
      now rewrite (unique_variable envMapping ev' envVar key
                     envMapping_keys Hin' Hin). }
    rewrite Hk, Hcfg3. split; [| split; [| split]].
    + intros p ps x Hp Hfile Hnd _ Hx Hscalar.
      rewrite Hr in Hp. injection Hp as ->.
      unfold readJson. rewrite Hfile. cbn [fst].
      now rewrite (deepMerge_lookup getDefaults ps key Hnd), Hx, Hscalar.
    + intros p ps Hp Hfile Hnd _ Hx.
      rewrite Hr in Hp. injection Hp as ->.
      unfold readJson. rewrite Hfile. cbn [fst].
      now rewrite (deepMerge_lookup getDefaults ps key Hnd), Hx.
    + intros p Hp Hno. rewrite Hr in Hp. injection Hp as ->.
      unfold readJson.
      destruct (files w p) as [| v | why | es] eqn:E; cbn [fst];
        try reflexivity.
      rewrite deepMerge_props_not_object; [reflexivity |].
      intros ps ->. now destruct (Hno ps).
    + intros Hnone. rewrite Hr in Hnone. now injection Hnone as ->.
  - intros v Hv. now apply Hret.
Qed.

Lemma loadConfig_priority_witness :
  prop (loader_config
          (fst (snd (loadConfig Sample.node
                       (SampleConfig.sys_with
                          (fun n => if (n =? "MCP_SERVER_NAME")%string
                                    then Some "prod" else None))
                       (new_ConfigLoader, Sample.machine Sample.no_files)))))
       "serverName" = VStr "prod".
Proof.
  apply (proj1 (loadConfig_priority Sample.node
                  (SampleConfig.sys_with
                     (fun n => if (n =? "MCP_SERVER_NAME")%string
                               then Some "prod" else None))
                  new_ConfigLoader (Sample.machine Sample.no_files)
                  "MCP_SERVER_NAME" "serverName" (or_introl eq_refl))
               "prod" eq_refl).
  discriminate.
Defined.

(** X25: out of the box.  When none of the variables is set and nothing
    exists at any location of a configuration file, [loadConfig] returns
    the defaults, records no configuration path, and leaves the
    directories [./data] and [./output] in existence. *)
Theorem loadConfig_defaults
    (node : Host) (sys : Process) (L : ConfigLoader) (w : world) :
  (forall envVar key, In (envVar, key) envMapping ->
                      process_env sys envVar = None \/
                      process_env sys envVar = Some "") ->
  (forall q, In (Some q) (locations node sys) ->
             q = "" \/ files w q = Missing) ->
  exists w',
    loadConfig node sys (L, w) =
      (Ok (VObj getDefaults),
       ({| loader_config := getDefaults; configPath := configPath L |}, w')) /\
    files w' "./data" <> Missing /\ files w' "./output" <> Missing /\
    (files w "./data" <> Missing -> files w "./output" <> Missing -> w' = w).
Proof.
  intros Hunset Hnofile.
  destruct (loadConfig_stages node sys L w)
    as (r & L3 & w3 & L4 & Hr & _ & _ & Hnone & Henv & Hrun).
  assert (Hr0 : r = None).
  { destruct (findConfigFile_in_spec (locations node sys) L w)
      as (r' & L' & Hfind & _ & Hspec).
    unfold findConfigFile in Hr. rewrite Hfind in Hr. injection Hr as <-.
    destruct r' as [p|]; [| reflexivity].
    destruct Hspec as (_ & Hne & Hf & before & after & Hloc & _).
    destruct (Hnofile p); [| contradiction | contradiction].
    rewrite Hloc. apply in_or_app. right. now left. }
  destruct (Hnone Hr0) as [-> ->].
  destruct (environment_loop sys envMapping
              {| loader_config := getDefaults; configPath := configPath L |} w)
    as (L4' & Henv' & _ & _ & _ & Hsame).
  unfold loadEnvironmentVariables in Henv. rewrite Henv in Henv'.
  injection Henv' as <-. rewrite (Hsame Hunset) in Hrun.
  destruct (validateConfig_run node sys
              {| loader_config := getDefaults; configPath := configPath L |}
              w "./data" "./output" eq_refl eq_refl)
    as (w' & Hval & Hd & Ho & Hsamew); try discriminate.
  exists w'. rewrite Hrun, Hval. cbn [loader_config prop assoc getDefaults].
  split; [reflexivity |]. now repeat split.
Qed.

Lemma loadConfig_defaults_witness :
  exists w',
    loadConfig Sample.node (SampleConfig.sys_with (fun _ => None))
      (new_ConfigLoader, Sample.machine Sample.no_files) =
    (Ok (VObj getDefaults),
     ({| loader_config := getDefaults; configPath := None |}, w')) /\
    files w' "./data" <> Missing.
Proof.
  destruct (loadConfig_defaults Sample.node
              (SampleConfig.sys_with (fun _ => None))
              new_ConfigLoader (Sample.machine Sample.no_files))
    as (w' & Hrun & Hd & _).
  - intros envVar key _. now left.
  - intros q _. now right.
  - exists w'. split; [exact Hrun | exact Hd].
Defined.
